(** * Remote command execution engine of python-mytest-multihost

    A shallow embedding of [mytest_multihost/ssh_command.py],
    [pytest_multihost/ssh_command.py] and the command-running part of
    [pytest_multihost/host.py].

    Conventions.
    - A Python [str] is a Rocq [string] holding the UTF-8 encoding of the
      text: concatenation, [str.format] with a [{}] hole, [str.replace] of an
      ASCII character and the character classes of [shlex] all commute with
      that encoding.
    - A Python [bytes] is a [list byte].
    - An exception is a value of [exn]; a call that may raise returns
      [result A]; a method that mutates its object or the outside world is a
      function in the monad [M S]: the state is returned also when it raises.
*)

From Stdlib Require Import String Ascii List ZArith Lia Bool.
From Stdlib.Strings Require Import Byte.
From Stdlib Require Import DecimalString.
Import ListNotations.

Local Open Scope string_scope.
Local Open Scope list_scope.

(** ** Python exceptions and results *)

Inductive exn : Type :=
| ValueError (msg : string)
| TypeError (msg : string)
| UnicodeDecodeError
| UnicodeEncodeError
| LookupError
| OSError
| BrokenPipeError
| IOError.

Inductive result (A : Type) : Type :=
| Ok (a : A)
| Raise (e : exn).
Arguments Ok {A} a.
Arguments Raise {A} e.

Definition rbind {A B} (r : result A) (k : A -> result B) : result B :=
  match r with
  | Ok a => k a
  | Raise e => Raise e
  end.

Declare Scope result_scope.
Delimit Scope result_scope with result.
Notation "x <- r ;; k" := (rbind r (fun x => k))
  (at level 61, r at next level, right associativity) : result_scope.

(** [mapM f l]: a Python [map]/comprehension forced to a list, left to right;
    the first element that raises aborts it. *)
Fixpoint mapM {A B} (f : A -> result B) (l : list A) : result (list B) :=
  match l with
  | [] => Ok []
  | x :: xs =>
      (y <- f x ;;
       ys <- mapM f xs ;;
       Ok (y :: ys))%result
  end.

(** ** [shlex.split] (standard library, POSIX mode)

    [shlex.split(s)] builds [shlex(s, posix=True)] with
    [whitespace_split = True] and [commenters = ''], and collects the tokens
    of [read_token] until it returns [None]. With these settings a character
    is whitespace, the escape character, a quote, or an ordinary character. *)
Module Shlex.

Definition whitespace (c : ascii) : bool :=
  (c =? " ")%char || (c =? "009")%char || (c =? "013")%char || (c =? "010")%char.

Definition escape (c : ascii) : bool := (c =? "\")%char.

(** The double quote character, code 34. *)
Definition dquote : ascii := "034"%char.

Definition quotes (c : ascii) : bool := (c =? "'")%char || (c =? dquote)%char.

(** Only inside double quotes does a backslash escape. *)
Definition escapedquotes (c : ascii) : bool := (c =? dquote)%char.

(** [self.state]: [' '], ['a'], a quote character, or the escape character
    (then [escapedstate] is kept: ['a'] or the enclosing quote). *)
Inductive state : Type :=
| SSpace
| SWord
| SQuote (q : ascii)
| SEscape (esc : ascii) (escapedstate : state).

Definition is_quote_state (s : state) : bool :=
  match s with SQuote _ => true | _ => false end.

Definition snoc (tok : string) (c : ascii) : string := tok ++ String c "".

(** [emit]: the end of one [read_token] call. The token is dropped when it
    is empty and nothing of it was quoted ([result = None] in the source,
    which cannot happen before the end of input). *)
Definition emit (tok : string) (quoted : bool) (acc : list string) : list string :=
  if negb quoted && (tok =? "") then acc else acc ++ [tok].

(** One pass over the input: [st] is [self.state], [tok] is [self.token],
    [quoted] the flag of the running [read_token] call, [acc] the tokens
    already returned. *)
Fixpoint lex (st : state) (tok : string) (quoted : bool) (acc : list string)
         (input : string) : result (list string) :=
  match input with
  | EmptyString =>
      match st with
      | SSpace => Ok acc
      | SWord => Ok (emit tok quoted acc)
      | SQuote _ => Raise (ValueError "No closing quotation")
      | SEscape _ _ => Raise (ValueError "No escaped character")
      end
  | String c rest =>
      match st with
      | SSpace =>
          if whitespace c then
            if negb (tok =? "") || quoted
            then lex SSpace "" false (acc ++ [tok]) rest
            else lex SSpace tok quoted acc rest
          else if escape c then lex (SEscape c SWord) tok quoted acc rest
          else if quotes c then lex (SQuote c) tok quoted acc rest
          else lex SWord (String c "") quoted acc rest
      | SQuote q =>
          if (c =? q)%char then lex SWord tok true acc rest
          else if escape c && escapedquotes q
               then lex (SEscape c (SQuote q)) tok true acc rest
          else lex (SQuote q) (snoc tok c) true acc rest
      | SEscape e back =>
          let tok' :=
            if is_quote_state back && negb (c =? e)%char
               && negb (match back with SQuote q => (c =? q)%char | _ => false end)
            then snoc tok e else tok in
          lex back (snoc tok' c) quoted acc rest
      | SWord =>
          if whitespace c then
            if negb (tok =? "") || quoted
            then lex SSpace "" false (acc ++ [tok]) rest
            else lex SSpace tok quoted acc rest
          else if quotes c then lex (SQuote c) tok quoted acc rest
          else if escape c then lex (SEscape c SWord) tok quoted acc rest
          else lex SWord (snoc tok c) quoted acc rest
      end
  end.

Definition split (s : string) : result (list string) :=
  lex SSpace "" false [] s.

End Shlex.

(** Every character of [s] satisfies [p]. *)
Fixpoint all (p : ascii -> bool) (s : string) : bool :=
  match s with
  | EmptyString => true
  | String c rest => p c && all p rest
  end.

(** An ordinary character for [shlex]: no whitespace, quote or backslash. *)
Definition ordinary (c : ascii) : bool :=
  negb (Shlex.whitespace c) && negb (Shlex.escape c) && negb (Shlex.quotes c).

(** A plain word: not empty, ordinary characters only. *)
Definition plain (s : string) : bool := negb (s =? "") && all ordinary s.

(** Between a quote [q] and the same quote: any character but [q] and, in
    double quotes, the backslash. *)
Definition inside (q c : ascii) : bool :=
  negb (c =? q)%char && negb (Shlex.escape c && Shlex.escapedquotes q).

(** ** Strings and bytes *)

Definition bytes := list byte.

(** [b''.join(chunks)]. *)
Definition join (chunks : list bytes) : bytes := concat chunks.

(** [s.replace(old, new)] for a one-character [old]. *)
Fixpoint replace (old : ascii) (new : string) (s : string) : string :=
  match s with
  | EmptyString => EmptyString
  | String c rest =>
      if (c =? old)%char then new ++ replace old new rest
      else String c (replace old new rest)
  end.

(** Occurrences of a character in a string. *)
Fixpoint count (c : ascii) (s : string) : nat :=
  match s with
  | EmptyString => 0
  | String d rest => (if (d =? c)%char then 1 else 0) + count c rest
  end.

Definition backslash : ascii := "\"%char.

(** [str(n)] for an integer. *)
Definition str_of_int (n : Z) : string := NilZero.string_of_int (Z.to_int n).

(** Truth value of an optional string: [None] and [''] are false. *)
Definition truthy (s : option string) : bool :=
  match s with
  | Some s => negb (s =? "")
  | None => false
  end.

(** ** The transport argument vector ([SSHCommand.__init__], first half) *)

(** [command]: a shell string, a Popen style list, or the default [None]. *)
Inductive command : Type :=
| CmdStr (s : string)
| CmdList (l : list string).

(** The [ssh] invocation before [.format] fills in user, identity and
    hostname. *)
Definition ssh_template (user identity hostname : string) : string :=
  "ssh -T " ++
  "-l " ++ user ++ " " ++
  "-i " ++ identity ++ " " ++
  "-o UserKnownHostsFile=/dev/null " ++
  "-o ControlMaster=auto " ++
  "-o StrictHostKeyChecking=no " ++
  "-o ControlPersist=10m " ++
  "-o ControlPath=/tmp/mytest-%r@%h:%p" ++
  " " ++ hostname.

(** The defaults of the keyword arguments [user] and [encoding] of
    [__init__], which a call that leaves them out passes, and the identity
    put in the place of [None]. *)
Definition default_user : string := "root".
Definition default_identity : string := "~/.ssh/id_rsa".
Definition default_encoding : option string := Some "utf-8".

(** [x] between two double quote characters. *)
Definition double_quoted (x : string) : string :=
  String Shlex.dquote x ++ String Shlex.dquote "".

(** The lambda of the [map]: a token that does not split into exactly one
    word is put between double quotes. *)
Definition requote (x : string) : result string :=
  (words <- Shlex.split x ;;
   Ok (if (length words =? 1)%nat then x else double_quoted x))%result.

(** [x.replace('\\', '\\\\').replace('\\', '\\\\')]. *)
Definition escape_twice (x : string) : string :=
  replace backslash "\\" (replace backslash "\\" x).

(** The options every invocation carries. *)
Definition transport_options : list string :=
  ["-o"; "UserKnownHostsFile=/dev/null";
   "-o"; "ControlMaster=auto";
   "-o"; "StrictHostKeyChecking=no";
   "-o"; "ControlPersist=10m";
   "-o"; "ControlPath=/tmp/mytest-%r@%h:%p"].

(** The words the template splits into when user, identity and hostname are
    one plain word each. *)
Definition transport_prefix (user identity hostname : string) : list string :=
  ["ssh"; "-T"; "-l"; user; "-i"; identity] ++ transport_options ++ [hostname].

(** [if identity is None: identity = "~/.ssh/id_rsa"]. *)
Definition chosen_identity (identity : option string) : string :=
  match identity with
  | None => default_identity
  | Some i => i
  end.

(** [if isinstance(command, str): command = shlex.split(command)]. *)
Definition command_words (cmd : option command) : result (option (list string)) :=
  match cmd with
  | Some (CmdStr s) => (l <- Shlex.split s ;; Ok (Some l))%result
  | Some (CmdList l) => Ok (Some l)
  | None => Ok None
  end.

(** The argument vector handed to [Popen], or the exception raised while
    building it. *)
Definition ssh_cmd (hostname user : string) (identity : option string)
           (cmd : option command) : result (list string) :=
  (cmd <- command_words cmd ;;
   let identity := chosen_identity identity in
   prefix <- Shlex.split (ssh_template user identity hostname) ;;
   argv <- match cmd with
           | Some l => Ok (prefix ++ l)
           | None => Raise (TypeError "'NoneType' object is not iterable")
           end ;;
   argv <- mapM requote argv ;;
   Ok (map escape_twice argv))%result.

(** ** State and exceptions

    [M S A]: a computation over a mutable state [S] that returns an [A] or
    raises; the state reached is kept in both cases. *)

Definition M (S A : Type) : Type := S -> result A * S.

Definition ret {S A} (a : A) : M S A := fun s => (Ok a, s).

Definition raise {S A} (e : exn) : M S A := fun s => (Raise e, s).

Definition bind {S A B} (m : M S A) (k : A -> M S B) : M S B :=
  fun s =>
    match m s with
    | (Ok a, s') => k a s'
    | (Raise e, s') => (Raise e, s')
    end.

Definition modify {S} (f : S -> S) : M S unit := fun s => (Ok tt, f s).

Definition lift {S A} (r : result A) : M S A := fun s => (r, s).

Declare Scope monad_scope.
Delimit Scope monad_scope with monad.
Notation "x <- m ;; k" := (bind m (fun x => k))
  (at level 61, m at next level, right associativity) : monad_scope.
Notation "m ;; k" := (bind m (fun _ => k))
  (at level 61, right associativity) : monad_scope.

(** ** The child process, its pipes and the drainer threads *)

Inductive fd : Type := STDIN | STDOUT | STDERR.

(** The reading end of a pipe: [pending] holds what the successive [read()]
    calls will return before end of file. *)
Record pipe : Type := mkPipe {
  pending : list bytes;
  closed : bool }.

(** What the operating system gives back for an argument vector: the chunks
    the process writes to each stream, as the successive reads will see them,
    its exit status, and how much of its input it takes. They are fixed when
    the process is spawned: what is sent to its stdin is recorded and does
    not change them.

    [reads_stdin] is the number of bytes the pipe to its stdin takes before
    its reading end is gone (the process has exited, or has closed its
    stdin), after which writing to the pipe fails with [EPIPE]; it is [None]
    for a process that reads its input to the end. A process ends, so a
    write that waits for room in the pipe is taken or fails in the end. *)
Record process : Type := mkProcess {
  writes_stdout : list bytes;
  writes_stderr : list bytes;
  exit_status : Z;
  reads_stdin : option nat }.

(** [subprocess.Popen] object with three pipes. Its [stdin] is an
    [io.BufferedWriter] on the writing end of a pipe: [stdin_buffer] holds
    what was written and not yet handed to the pipe, [stdin_data] what the
    pipe took, [stdin_room] what it still takes ([None]: anything). *)
Record Popen : Type := mkPopen {
  args : list string;
  stdin_closed : bool;
  stdin_buffer : bytes;
  stdin_data : bytes;
  stdin_room : option nat;
  stdout : pipe;
  stderr : pipe;
  status : Z }.

(** [threading.Thread] running [_do_recv]: [store] is the list object it was
    given and appends to. *)
Record Thread : Type := mkThread {
  store : list bytes;
  finished : bool }.

(** [stream.read()]: the next chunk, [b''] at end of file. *)
Definition read (p : list bytes) : bytes * list bytes :=
  match p with
  | [] => ([], [])
  | data :: rest => (data, rest)
  end.

Definition is_empty (b : bytes) : bool :=
  match b with [] => true | _ => false end.

(** The loop of [_do_recv] ([_do_recv_data] in pytest_multihost), run to its
    [break]: what is left in the pipe and the store. *)
Fixpoint _do_recv (stream : list bytes) (store : list bytes)
  : list bytes * list bytes :=
  match stream with
  | [] => ([], store)
  | data :: rest =>
      if is_empty data then (rest, store)
      else _do_recv rest (store ++ [data])
  end.

(** What a drainer started on a stream has stored when it ends, joined. *)
Definition drain (stream : list bytes) : bytes := join (snd (_do_recv stream [])).

(** One iteration of that loop, for a thread scheduled before it is joined.
    Reading a closed pipe raises in the thread, which ends it. *)
Definition drainer_step (p : pipe) (t : Thread) : pipe * Thread :=
  if finished t then (p, t)
  else if closed p then (p, mkThread (store t) true)
  else
    let (data, rest) := read (pending p) in
    if is_empty data
    then (mkPipe rest (closed p), mkThread (store t) true)
    else (mkPipe rest (closed p), mkThread (store t ++ [data]) false).

(** [thread.join()]: the caller blocks until the loop has reached its
    [break]. *)
Definition run_to_end (p : pipe) (t : Thread) : pipe * Thread :=
  if finished t then (p, t)
  else if closed p then (p, mkThread (store t) true)
  else
    let (rest, st) := _do_recv (pending p) (store t) in
    (mkPipe rest (closed p), mkThread st true).

(** ** The command object *)

(** The two packages hold two copies of the class; they differ in [log], in
    the logging of [wait] and in the setter of [stdout_text]. *)
Inductive package : Type := mytest_multihost | pytest_multihost.

(** [self.out_data] and [self.err_data] name list objects: the one handed to
    the drainer thread of that stream, or a list made later (by the setter). *)
Inductive data_ref : Type :=
| ThreadStore (t : fd)
| Fresh (l : list bytes).

(** The attributes of the object; [logger] tells whether one was given
    ([if self.logger]). *)
Record SSHCommand : Type := mkSSHCommand {
  logger : bool;
  encoding : option string;
  returncode : option Z;
  out_data_ref : data_ref;
  err_data_ref : data_ref;
  cmd : Popen;
  out_thread : Thread;
  err_thread : Thread }.

Definition deref (c : SSHCommand) (r : data_ref) : list bytes :=
  match r with
  | ThreadStore STDERR => store (err_thread c)
  | ThreadStore _ => store (out_thread c)
  | Fresh l => l
  end.

Definition out_data (c : SSHCommand) : list bytes := deref c (out_data_ref c).
Definition err_data (c : SSHCommand) : list bytes := deref c (err_data_ref c).

(** Logging and the calls made on the process, in program order. *)
Inductive level : Type := DEBUG | INFO.

Record log_record : Type := mkLog {
  levelname : level;
  message : string }.

Inductive event : Type :=
| Spawn (argv : list string)
| Start (t : fd)
| Write (data : bytes)
| Flush
| Close (s : fd)
| Join (t : fd)
| WaitProcess.

(** ** Concrete instances of the built-ins, for closed examples *)

(** The strict UTF-8 codec: well-formed byte sequences of the Unicode
    standard (no overlong forms, no surrogates, nothing above U+10FFFF).
    Text being kept in UTF-8, decoding a valid sequence keeps its bytes. *)
Module Utf8.

Definition between (lo hi : N) (b : byte) : bool :=
  ((lo <=? Byte.to_N b) && (Byte.to_N b <=? hi))%N.

Definition tail (b : byte) : bool := between 128 191 b.

Fixpoint valid (l : bytes) : bool :=
  match l with
  | [] => true
  | b0 :: r0 =>
      if between 0 127 b0 then valid r0
      else
        match r0 with
        | [] => false
        | b1 :: r1 =>
            if between 194 223 b0 then tail b1 && valid r1
            else
              match r1 with
              | [] => false
              | b2 :: r2 =>
                  if between 224 224 b0 then between 160 191 b1 && tail b2 && valid r2
                  else if between 225 236 b0 then tail b1 && tail b2 && valid r2
                  else if between 237 237 b0 then between 128 159 b1 && tail b2 && valid r2
                  else if between 238 239 b0 then tail b1 && tail b2 && valid r2
                  else
                    match r2 with
                    | [] => false
                    | b3 :: r3 =>
                        if between 240 240 b0
                        then between 144 191 b1 && tail b2 && tail b3 && valid r3
                        else if between 241 243 b0
                        then tail b1 && tail b2 && tail b3 && valid r3
                        else if between 244 244 b0
                        then between 128 143 b1 && tail b2 && tail b3 && valid r3
                        else false
                    end
              end
        end
  end.

Definition known (enc : string) : bool := (enc =? "utf-8") || (enc =? "utf8").

Definition decode (enc : string) (b : bytes) : result string :=
  if known enc then
    if valid b then Ok (string_of_list_byte b) else Raise UnicodeDecodeError
  else Raise LookupError.

Definition encode (enc : string) (s : string) : result bytes :=
  if known enc then Ok (list_byte_of_string s) else Raise LookupError.

End Utf8.

(** [repr] of a list of strings that hold no quote, backslash or control
    character. *)
Definition repr_plain (l : list string) : string :=
  "[" ++ String.concat ", " (map (fun s => ("'" ++ s ++ "'")%string) l) ++ "]".

(** A remote side that answers the successive spawns with the processes of a
    script, and cannot spawn once the script is used up. *)
Definition scripted (argv : list string) (script : list process)
  : result process * list process :=
  match script with
  | p :: rest => (Ok p, rest)
  | [] => (Raise OSError, [])
  end.

(** Processes for the examples: one that exits with zero in silence, one
    that fails with text on stderr, one that fails with a byte on stderr that
    is not UTF-8, and one that writes such a byte to stdout; all of them read
    their input to the end. The last one exits with 255 and reads nothing,
    as [ssh] does when it cannot connect. *)
Definition quiet_process : process := mkProcess [] [] 0 None.

Definition failing_process : process :=
  mkProcess [] [list_byte_of_string "boom"] 1 None.

Definition garbled_process : process := mkProcess [] [[xff]] 1 None.

Definition binary_process : process := mkProcess [[x61]; [xff]] [[xff]] 0 None.

Definition unreachable_process : process :=
  mkProcess [] [list_byte_of_string "ssh: connect failed"] 255 (Some 0%nat).

(** The size of the buffer of a pipe object in the examples (the block size
    Linux reports for a pipe). *)
Definition pipe_blksize : nat := 4096.

(** A command a [send] of one byte has failed on: its process has gone
    without reading, the byte is still in the buffer of stdin and the pipe
    takes nothing. *)
Definition stuck_command : SSHCommand :=
  {| logger := false;
     encoding := default_encoding;
     returncode := None;
     out_data_ref := ThreadStore STDOUT;
     err_data_ref := ThreadStore STDERR;
     cmd := mkPopen ["ssh"] false [x61] [] (Some 0%nat) (mkPipe [] false)
                    (mkPipe [list_byte_of_string "ssh: connect failed"] false) 255;
     out_thread := mkThread [] false;
     err_thread := mkThread [] false |}.

(** A value an accessor may return: text or raw bytes. *)
Inductive pyval : Type :=
| PyStr (s : string)
| PyBytes (b : bytes).

(** [not self.returncode]: [None] and [0] are false. *)
Definition falsy (rc : option Z) : bool :=
  match rc with
  | None => true
  | Some n => (n =? 0)%Z
  end.

Section Engine.

(** The machines reached through [ssh], and what spawning an argument vector
    there gives: a process, or [OSError] when the binary cannot be started. *)
Variable W : Type.
Variable popen : list string -> W -> result process * W.

(** Built-ins of Python the classes call: [bytes.decode(encoding)],
    [str.encode(encoding)] and the [repr] of a list of strings. *)
Variable py_decode : string -> bytes -> result string.
Variable py_encode : string -> string -> result bytes.
Variable py_repr : list string -> string.

(** The size of the buffer [io.open] gives the file object of stdin, [Popen]
    being called with the default [bufsize=-1]: the block size the system
    reports for the pipe, or [io.DEFAULT_BUFFER_SIZE]. *)
Variable bufsize : nat.

(** What lies outside the command object: the remote side, the records the
    shared logger received and the calls made so far. *)
Record world : Type := mkWorld {
  remote : W;
  logged : list log_record;
  calls : list event }.

Definition emit_call (e : event) : M world unit :=
  modify (fun w => mkWorld (remote w) (logged w) (calls w ++ [e])).

Definition emit_log (l : level) (m : string) : M world unit :=
  modify (fun w => mkWorld (remote w) (logged w ++ [mkLog l m]) (calls w)).

(** Methods run on the object and the world together. *)
Definition state : Type := SSHCommand * world.

Definition self : M state SSHCommand := fun s => (Ok (fst s), s).

Definition set_self (f : SSHCommand -> SSHCommand) : M state unit :=
  modify (fun s : state => (f (fst s), snd s)).

Definition outside {A} (m : M world A) : M state A :=
  fun s => let (r, w) := m (snd s) in (r, (fst s, w)).

(** [SSHCommand.log]. *)
Definition log_with (pkg : package) (logger : bool) (msg : string) : M world unit :=
  if logger
  then emit_log (match pkg with mytest_multihost => DEBUG | pytest_multihost => INFO end)
                ("CMD " ++ msg)
  else ret tt.

Definition log (pkg : package) (msg : string) : M state unit :=
  (c <- self ;; outside (log_with pkg (logger c) msg))%monad.

(** The object [__init__] builds for a process: drainers started, nothing
    read yet. *)
Definition fresh_command (argv : list string) (p : process)
           (enc : option string) (lg : bool) : SSHCommand :=
  {| logger := lg;
     encoding := enc;
     returncode := None;
     out_data_ref := ThreadStore STDOUT;
     err_data_ref := ThreadStore STDERR;
     cmd := mkPopen argv false [] [] (reads_stdin p)
                    (mkPipe (writes_stdout p) false)
                    (mkPipe (writes_stderr p) false) (exit_status p);
     out_thread := mkThread [] false;
     err_thread := mkThread [] false |}.

(** [SSHCommand.__init__]. *)
Definition __init__ (pkg : package) (hostname user : string)
           (identity : option string) (command : option command)
           (encoding : option string) (logger : bool) : M world SSHCommand :=
  (argv <- lift (ssh_cmd hostname user identity command) ;;
   log_with pkg logger (py_repr argv) ;;
   p <- (fun w => let (r, rem) := popen argv (remote w) in
                  (r, mkWorld rem (logged w) (calls w))) ;;
   emit_call (Spawn argv) ;;
   emit_call (Start STDOUT) ;;
   emit_call (Start STDERR) ;;
   ret (fresh_command argv p encoding logger))%monad.

(** Field updates. *)
Definition with_returncode (rc : option Z) (c : SSHCommand) : SSHCommand :=
  mkSSHCommand (logger c) (encoding c) rc (out_data_ref c) (err_data_ref c)
               (cmd c) (out_thread c) (err_thread c).

Definition with_out_data (r : data_ref) (c : SSHCommand) : SSHCommand :=
  mkSSHCommand (logger c) (encoding c) (returncode c) r (err_data_ref c)
               (cmd c) (out_thread c) (err_thread c).

Definition with_cmd (p : Popen) (c : SSHCommand) : SSHCommand :=
  mkSSHCommand (logger c) (encoding c) (returncode c) (out_data_ref c)
               (err_data_ref c) p (out_thread c) (err_thread c).

Definition with_stdout (p : pipe) (t : Thread) (c : SSHCommand) : SSHCommand :=
  let k := cmd c in
  mkSSHCommand (logger c) (encoding c) (returncode c) (out_data_ref c)
               (err_data_ref c)
               (mkPopen (args k) (stdin_closed k) (stdin_buffer k) (stdin_data k)
                        (stdin_room k) p (stderr k) (status k))
               t (err_thread c).

Definition with_stderr (p : pipe) (t : Thread) (c : SSHCommand) : SSHCommand :=
  let k := cmd c in
  mkSSHCommand (logger c) (encoding c) (returncode c) (out_data_ref c)
               (err_data_ref c)
               (mkPopen (args k) (stdin_closed k) (stdin_buffer k) (stdin_data k)
                        (stdin_room k) (stdout k) p (status k))
               (out_thread c) t.

(** ** The writing end of the pipe to stdin

    [self.cmd.stdin] is the [BufferedWriter] of the [io] module on a
    blocking pipe; CPython ignores [SIGPIPE], so that a write to a pipe
    whose reading end is gone raises [BrokenPipeError]. *)

(** Whether a pipe with [room] left takes [n] more bytes. *)
Definition takes (room : option nat) (n : nat) : bool :=
  match room with
  | None => true
  | Some r => (n <=? r)%nat
  end.

Definition room_left (room : option nat) (n : nat) : option nat :=
  match room with
  | None => None
  | Some r => Some (r - n)%nat
  end.

(** [os.write] on the pipe: the bytes are taken, or the reading end is gone,
    now and for every later write. A write the pipe takes only in part
    before its reading end goes raises as well; its bytes count as not
    taken. *)
Definition pipe_write (data : bytes) : M Popen unit :=
  fun k =>
    if takes (stdin_room k) (length data)
    then (Ok tt,
          mkPopen (args k) (stdin_closed k) (stdin_buffer k) (stdin_data k ++ data)
                  (room_left (stdin_room k) (length data))
                  (stdout k) (stderr k) (status k))
    else (Raise BrokenPipeError,
          mkPopen (args k) (stdin_closed k) (stdin_buffer k) (stdin_data k)
                  (Some 0%nat) (stdout k) (stderr k) (status k)).

Definition with_buffer (b : bytes) (k : Popen) : Popen :=
  mkPopen (args k) (stdin_closed k) b (stdin_data k) (stdin_room k)
          (stdout k) (stderr k) (status k).

(** The flush of the buffer: what it holds is handed to the pipe and, when
    that raises, stays in the buffer. *)
Definition flush_buffer : M Popen unit :=
  fun k =>
    if is_empty (stdin_buffer k) then (Ok tt, k)
    else (pipe_write (stdin_buffer k) ;; modify (with_buffer []))%monad k.

(** [BufferedWriter.write]: data that fits in the buffer is kept there;
    otherwise the buffer is flushed, and the data goes to the pipe at once
    when it is larger than the buffer, into the buffer when not. *)
Definition buffered_write (data : bytes) : M Popen unit :=
  fun k =>
    if stdin_closed k then (Raise (ValueError "write to closed file"), k)
    else if (length data <=? bufsize - length (stdin_buffer k))%nat
    then (Ok tt, with_buffer (stdin_buffer k ++ data) k)
    else (flush_buffer ;;
          if (bufsize <? length data)%nat then pipe_write data
          else modify (with_buffer data))%monad k.

(** [BufferedWriter.flush]. *)
Definition buffered_flush : M Popen unit :=
  fun k =>
    if stdin_closed k then (Raise (ValueError "flush of closed file"), k)
    else flush_buffer k.

(** [BufferedWriter.close]: nothing on a closed file; otherwise the buffer
    is flushed and the file is closed, also when the flush raised, and what
    the flush raised is raised. *)
Definition shut (k : Popen) : Popen :=
  mkPopen (args k) true (stdin_buffer k) (stdin_data k) (stdin_room k)
          (stdout k) (stderr k) (status k).

Definition buffered_close : M Popen unit :=
  fun k =>
    if stdin_closed k then (Ok tt, k)
    else let (r, k') := flush_buffer k in (r, shut k').

(** A method of [self.cmd] run on the object. *)
Definition on_cmd {A} (m : M Popen A) : M state A :=
  fun s =>
    let (r, k) := m (cmd (fst s)) in
    (r, (with_cmd k (fst s), snd s)).

(** What a call on [self.cmd] or on a thread does to the object. After
    [stdin.close()] the file is closed, and buffer, bytes taken and room are
    as [BufferedWriter.close] left them. *)
Definition closing (s : fd) (c : SSHCommand) : SSHCommand :=
  let k := cmd c in
  match s with
  | STDIN =>
      let k' := snd (buffered_close k) in
      with_cmd (mkPopen (args k) true (stdin_buffer k') (stdin_data k') (stdin_room k')
                        (stdout k) (stderr k) (status k)) c
  | STDOUT => with_stdout (mkPipe (pending (stdout k)) true) (out_thread c) c
  | STDERR => with_stderr (mkPipe (pending (stderr k)) true) (err_thread c) c
  end.

(** What [close()] raises: only the flush of stdin can. *)
Definition close_result (s : fd) (c : SSHCommand) : result unit :=
  match s with
  | STDIN => fst (buffered_close (cmd c))
  | _ => Ok tt
  end.

(** The drainer of a stream is [out_thread] for [STDOUT] and [err_thread]
    for [STDERR]. *)
Definition joined (t : fd) (c : SSHCommand) : SSHCommand :=
  match t with
  | STDERR =>
      let r := run_to_end (stderr (cmd c)) (err_thread c) in
      with_stderr (fst r) (snd r) c
  | _ =>
      let r := run_to_end (stdout (cmd c)) (out_thread c) in
      with_stdout (fst r) (snd r) c
  end.

(** A drainer scheduled for one iteration while the caller does something
    else. *)
Definition scheduled (t : fd) (c : SSHCommand) : SSHCommand :=
  match t with
  | STDERR =>
      let r := drainer_step (stderr (cmd c)) (err_thread c) in
      with_stderr (fst r) (snd r) c
  | _ =>
      let r := drainer_step (stdout (cmd c)) (out_thread c) in
      with_stdout (fst r) (snd r) c
  end.

(** The object after a [write] and a [flush] the pipe took. *)
Definition written (data : bytes) (c : SSHCommand) : SSHCommand :=
  let k := cmd c in
  with_cmd (mkPopen (args k) (stdin_closed k) (stdin_buffer k) (stdin_data k ++ data)
                    (room_left (stdin_room k) (length data))
                    (stdout k) (stderr k) (status k)) c.

(** [stream.close()] on one of the three pipes of [self.cmd]: the call is
    made and the stream closed before anything is raised. *)
Definition close_stream (s : fd) : M state unit :=
  (c <- self ;;
   set_self (closing s) ;;
   outside (emit_call (Close s)) ;;
   lift (close_result s c))%monad.

(** [self.cmd.stdin.write(data)]. *)
Definition stdin_write (data : bytes) : M state unit :=
  (on_cmd (buffered_write data) ;;
   outside (emit_call (Write data)))%monad.

(** [self.cmd.stdin.flush()]. *)
Definition stdin_flush : M state unit :=
  (on_cmd buffered_flush ;;
   outside (emit_call Flush))%monad.

(** [thread.join()]. *)
Definition join_thread (t : fd) : M state unit :=
  (set_self (joined t) ;;
   outside (emit_call (Join t)))%monad.

(** [self.cmd.wait()]. *)
Definition popen_wait : M state Z :=
  (outside (emit_call WaitProcess) ;;
   c <- self ;;
   ret (status (cmd c)))%monad.

(** The codec of [x.encode(self.encoding)] or [x.encode()], and of the two
    [decode] calls alike, chosen by [if self.encoding]; the default codec of
    [encode()] and [decode()] is utf-8. *)
Definition codec (enc : option string) : string :=
  match enc with
  | Some e => if truthy enc then e else "utf-8"
  | None => "utf-8"
  end.

(** [SSHCommand.send]: [data] is [None], text or bytes. *)
Definition send (data : option pyval) : M state unit :=
  match data with
  | None | Some (PyStr "") | Some (PyBytes []) => ret tt
  | Some d =>
      (c <- self ;;
       raw <- match d with
              | PyBytes b => ret b
              | PyStr s => lift (py_encode (codec (encoding c)) s)
              end ;;
       stdin_write raw ;;
       stdin_flush)%monad
  end.

(** The property [stdout_text]. *)
Definition stdout_text (c : SSHCommand) : result pyval :=
  match returncode c with
  | Some _ =>
      let stdout := join (out_data c) in
      if truthy (encoding c) then
        match py_decode (codec (encoding c)) stdout with
        | Ok s => Ok (PyStr s)
        | Raise UnicodeDecodeError => Ok (PyBytes stdout)
        | Raise other => Raise other
        end
      else Ok (PyBytes stdout)
  | None => Ok (PyStr "")
  end.

(** The setter of [stdout_text] (mytest_multihost only). *)
Definition set_stdout_text (value : string) : M state unit :=
  (set_self (with_out_data (Fresh [])) ;;
   c <- self ;;
   raw <- lift (py_encode (codec (encoding c)) value) ;;
   set_self (fun c => with_out_data (Fresh (out_data c ++ [raw])) c))%monad.

(** The property [stderr_text]. *)
Definition stderr_text (c : SSHCommand) : result string :=
  match returncode c with
  | Some _ => py_decode (codec (encoding c)) (join (err_data c))
  | None => Ok ""
  end.

(** [SSHCommand.wait]. *)
Definition wait (pkg : package) : M state (option Z) :=
  (c <- self ;;
   (if falsy (returncode c) then
      close_stream STDIN ;;
      join_thread STDOUT ;;
      close_stream STDOUT ;;
      join_thread STDERR ;;
      close_stream STDERR ;;
      rc <- popen_wait ;;
      set_self (with_returncode (Some rc)) ;;
      match pkg with
      | mytest_multihost =>
          log pkg ("RETURNCODE " ++ str_of_int rc) ;;
          if (rc =? 0)%Z then ret tt
          else
            c <- self ;;
            err <- lift (stderr_text c) ;;
            log pkg ("STDERR " ++ err)
      | pytest_multihost => ret tt
      end
    else ret tt) ;;
   c <- self ;;
   ret (returncode c))%monad.

(** The drainers scheduled for iterations in some order before [wait]. *)
Definition interleaved (steps : list fd) (c : SSHCommand) : SSHCommand :=
  fold_left (fun c t => scheduled t c) steps c.

(** The calls of one run of the body of [wait], in order. *)
Definition wait_calls : list event :=
  [Close STDIN; Join STDOUT; Close STDOUT; Join STDERR; Close STDERR; WaitProcess].

(** The object after these calls, and after the exit status is stored. *)
Definition drained (c : SSHCommand) : SSHCommand :=
  closing STDERR (joined STDERR (closing STDOUT (joined STDOUT (closing STDIN c)))).

Definition waited (c : SSHCommand) : SSHCommand :=
  with_returncode (Some (status (cmd c))) (drained c).

(** The world with more calls made, or more records logged. *)
Definition called (es : list event) (w : world) : world :=
  mkWorld (remote w) (logged w) (calls w ++ es).

Definition logging (rs : list log_record) (w : world) : world :=
  mkWorld (remote w) (logged w ++ rs) (calls w).

(** The records [SSHCommand.log] adds for one message. *)
Definition log_records (pkg : package) (c : SSHCommand) (msg : string)
  : list log_record :=
  if logger c
  then [mkLog (match pkg with mytest_multihost => DEBUG | pytest_multihost => INFO end)
              ("CMD " ++ msg)]
  else [].

(** A command [wait] has run on: both drainers have ended, the pipes are
    closed and the exit status of the process is stored. *)
Definition Finalized (c : SSHCommand) : Prop :=
  returncode c = Some (status (cmd c))
  /\ finished (out_thread c) = true
  /\ finished (err_thread c) = true
  /\ stdin_closed (cmd c) = true.

(** What [wait] returns when it runs its body: the exit status, unless the
    logging of mytest_multihost fails to decode stderr. *)
Definition wait_result (pkg : package) (c : SSHCommand) : result (option Z) :=
  let rc := status (cmd c) in
  match pkg with
  | mytest_multihost =>
      if (rc =? 0)%Z then Ok (Some rc)
      else (_ <- stderr_text (waited c) ;; Ok (Some rc))%result
  | pytest_multihost => Ok (Some rc)
  end.

(** ** The host facade ([pytest_multihost/host.py])

    [host.py] imports [SSHCommand] from [pytest_multihost.ssh_command]. *)

Record BaseHost : Type := mkHost {
  hostname : string;
  ssh_username : string;
  ssh_key_filename : option string;
  test_dir : string;
  env_sh_path : string;
  (** [''] for [BaseHost] and [WinHost], ['set -e'] for [Host]. *)
  command_prelude : string }.

(** A Unix host ([Host]) for the examples. *)
Definition localhost : BaseHost :=
  {| hostname := "localhost";
     ssh_username := "root";
     ssh_key_filename := None;
     test_dir := "/root/multihost_tests";
     env_sh_path := "/root/multihost_tests/env.sh";
     command_prelude := "set -e" |}.

(** [self.log.info(msg)] of the host: the logger it also hands to every
    command. *)
Definition log_info (msg : string) : M world unit := emit_log INFO msg.

(** Runs methods on a fresh command object and gives the object back. *)
Definition on_command (c : SSHCommand) (m : M state unit) : M world SSHCommand :=
  fun w =>
    match m (c, w) with
    | (Ok _, (c', w')) => (Ok c', w')
    | (Raise e, (_, w')) => (Raise e, w')
    end.

Definition truthy_data (d : option pyval) : bool :=
  match d with
  | None | Some (PyStr "") | Some (PyBytes []) => false
  | Some _ => true
  end.

(** ["{}".format(cmd.returncode)]. *)
Definition format_returncode (rc : option Z) : string :=
  match rc with
  | Some n => str_of_int n
  | None => "None"
  end.

(** [BaseHost._exec_command]. *)
Definition _exec_command (h : BaseHost) (command : command)
           (stdin_data : option pyval) (bg : bool) (encoding : option string)
  : M world SSHCommand :=
  (c <- __init__ pytest_multihost (hostname h) (ssh_username h)
                 (ssh_key_filename h) (Some command) encoding true ;;
   on_command c
     ((if truthy_data stdin_data then send stdin_data else ret tt) ;;
      if negb bg then
        wait pytest_multihost ;;
        c <- self ;;
        outside (log_info ("RETURNCODE " ++ format_returncode (returncode c))) ;;
        if negb (falsy (returncode c)) then
          err <- lift (stderr_text c) ;;
          outside (log_info ("STDERR " ++ err))
        else ret tt
      else ret tt))%monad.

(** [BaseHost.file_exists]. *)
Definition file_exists (h : BaseHost) (filename : string) : M world bool :=
  (log_info ("STAT " ++ filename) ;;
   c <- _exec_command h (CmdStr ("test -f " ++ filename)) None false default_encoding ;;
   ret (match returncode c with
        | Some 0%Z => true
        | _ => false
        end))%monad.

(** [BaseHost.mkdir]. *)
Definition mkdir (h : BaseHost) (path : string) : M world unit :=
  (log_info ("MKDIR " ++ path) ;;
   _exec_command h (CmdStr ("mkdir -p " ++ path)) None false default_encoding ;;
   ret tt)%monad.

(** [BaseHost.get_file_contents]: [None], bytes or text. *)
Definition get_file_contents (h : BaseHost) (filename : string)
           (encoding : option string) : M world (option pyval) :=
  (found <- file_exists h filename ;;
   if negb found then raise IOError
   else
     log_info ("GET " ++ filename) ;;
     c <- _exec_command h (CmdStr ("cat " ++ filename)) None false None ;;
     if negb (falsy (returncode c)) then ret None
     else
       let contents := join (out_data c) in
       if truthy encoding then
         s <- lift (py_decode (codec encoding) contents) ;;
         ret (Some (PyStr s))
       else ret (Some (PyBytes contents)))%monad.


(** [BaseHost.run_command]. [log_stdout] and [raiseonerr] are parameters of
    the method; its body reads neither. *)
Definition run_command (h : BaseHost) (argv : command) (set_env : bool)
           (stdin_text : option pyval) (log_stdout raiseonerr : bool)
           (cwd : option string) (bg : bool) : M world SSHCommand :=
  (let cwd := match cwd with None => test_dir h | Some d => d end in
   cmd_str <- (if negb (cwd =? "") then
                 mkdir h cwd ;;
                 ret ("cd " ++ cwd ++ " && ")%string
               else ret "") ;;
   cmd_str <- (if set_env then
                 found <- file_exists h (env_sh_path h) ;;
                 ret (if found
                      then (cmd_str ++ "source " ++ env_sh_path h ++ " && ")%string
                      else cmd_str)
               else ret cmd_str) ;;
   let cmd_str := if negb (command_prelude h =? "")
                  then (cmd_str ++ command_prelude h ++ " && ")%string
                  else cmd_str in
   cmd <- match argv with
          | CmdStr script => lift (Shlex.split (cmd_str ++ "( " ++ script ++ " )"))
          | CmdList l =>
              words <- lift (Shlex.split cmd_str) ;;
              ret (words ++ ["("] ++ l ++ [")"])
          end ;;
   _exec_command h (CmdList cmd) stdin_text bg default_encoding)%monad.

(** The argument vectors spawned so far, in order. *)
Definition spawned (w : world) : list (list string) :=
  flat_map (fun e => match e with Spawn argv => [argv] | _ => [] end) (calls w).

(** Unfolds the monad around [wait] and its calls. *)
Ltac run_monad :=
  unfold wait, log, log_with, close_stream, join_thread, popen_wait, set_self,
    outside, emit_call, emit_log, modify, self, lift, ret, raise, bind;
  cbn [fst snd].

(** Projections of the records built while stdin is written to. *)
Ltac stdin_simpl :=
  cbn [fst snd cmd stdin_closed stdin_buffer stdin_data stdin_room args stdout
       stderr status length app is_empty logger encoding returncode
       out_data_ref err_data_ref out_thread err_thread remote logged calls].

Ltac stdin_unfold :=
  unfold stdin_write, stdin_flush, on_cmd, outside, emit_call,
    buffered_write, buffered_flush, flush_buffer, pipe_write, called,
    with_cmd, with_buffer, bind, modify.

(** ** Callers of the engine *)



(** What [send] writes for its argument: nothing for [None], [''] and
    [b''], the bytes themselves, or the text encoded. *)
Definition payload (enc : option string) (data : option pyval)
  : result (option bytes) :=
  match data with
  | None | Some (PyStr "") | Some (PyBytes []) => Ok None
  | Some (PyBytes b) => Ok (Some b)
  | Some (PyStr s) => (raw <- py_encode (codec enc) s ;; Ok (Some raw))%result
  end.

(** The object and the world after that write. *)
Definition fed (input : option bytes) (c : SSHCommand) : SSHCommand :=
  match input with
  | Some raw => written raw c
  | None => c
  end.

Definition feeding (input : option bytes) (w : world) : world :=
  match input with
  | Some raw => called [Write raw; Flush] w
  | None => w
  end.

(** Whether a pipe with [room] left takes that write. *)
Definition taken (room : option nat) (input : option bytes) : bool :=
  match input with
  | Some raw => takes room (length raw)
  | None => true
  end.

(** ** The reader of [shlex], one character at a time

    [Shlex.lex] raises at the end of the input only, so it is a run of steps
    over configurations followed by the handling of the end. *)

(** [self.state], [self.token], the flag [quoted], the tokens returned. *)
Definition lex_config : Type := Shlex.state * string * bool * list string.

Definition lex_start : lex_config := (Shlex.SSpace, "", false, []).

Definition lex_step (k : lex_config) (c : ascii) : lex_config :=
  let '(st, tok, quoted, acc) := k in
  match st with
  | Shlex.SSpace =>
      if Shlex.whitespace c then
        if negb (tok =? "") || quoted
        then (Shlex.SSpace, "", false, acc ++ [tok])
        else (Shlex.SSpace, tok, quoted, acc)
      else if Shlex.escape c then (Shlex.SEscape c Shlex.SWord, tok, quoted, acc)
      else if Shlex.quotes c then (Shlex.SQuote c, tok, quoted, acc)
      else (Shlex.SWord, String c "", quoted, acc)
  | Shlex.SQuote q =>
      if (c =? q)%char then (Shlex.SWord, tok, true, acc)
      else if Shlex.escape c && Shlex.escapedquotes q
           then (Shlex.SEscape c (Shlex.SQuote q), tok, true, acc)
      else (Shlex.SQuote q, Shlex.snoc tok c, true, acc)
  | Shlex.SEscape e back =>
      let tok' :=
        if Shlex.is_quote_state back && negb (c =? e)%char
           && negb (match back with Shlex.SQuote q => (c =? q)%char | _ => false end)
        then Shlex.snoc tok e else tok in
      (back, Shlex.snoc tok' c, quoted, acc)
  | Shlex.SWord =>
      if Shlex.whitespace c then
        if negb (tok =? "") || quoted
        then (Shlex.SSpace, "", false, acc ++ [tok])
        else (Shlex.SSpace, tok, quoted, acc)
      else if Shlex.quotes c then (Shlex.SQuote c, tok, quoted, acc)
      else if Shlex.escape c then (Shlex.SEscape c Shlex.SWord, tok, quoted, acc)
      else (Shlex.SWord, Shlex.snoc tok c, quoted, acc)
  end.

Fixpoint lex_run (k : lex_config) (input : string) : lex_config :=
  match input with
  | EmptyString => k
  | String c rest => lex_run (lex_step k c) rest
  end.

Definition lex_end (k : lex_config) : result (list string) :=
  let '(st, tok, quoted, acc) := k in
  match st with
  | Shlex.SSpace => Ok acc
  | Shlex.SWord => Ok (Shlex.emit tok quoted acc)
  | Shlex.SQuote _ => Raise (ValueError "No closing quotation")
  | Shlex.SEscape _ _ => Raise (ValueError "No escaped character")
  end.

(** Configurations the reader can be in: between tokens nothing is held,
    a quote state is for a quote character, an escape leads back to a word
    or to a quote. *)
Definition lex_tidy (k : lex_config) : Prop :=
  let '(st, tok, quoted, acc) := k in
  match st with
  | Shlex.SSpace => tok = "" /\ quoted = false
  | Shlex.SWord => True
  | Shlex.SQuote q => Shlex.quotes q = true
  | Shlex.SEscape _ Shlex.SWord => True
  | Shlex.SEscape _ (Shlex.SQuote q) => Shlex.quotes q = true
  | Shlex.SEscape _ _ => False
  end.

(** A shell line that is empty or ends with the separator [&& ]. *)
Definition separated (s : string) : Prop :=
  s = "" \/ exists x, s = (x ++ "&& ")%string.

(** The first half of [run_command]: the directory is made, [env.sh] is
    looked for, and the line to put before the command is returned. *)
Definition command_line (h : BaseHost) (set_env : bool) (cwd : option string)
  : M world string :=
  (let cwd := match cwd with None => test_dir h | Some d => d end in
   cmd_str <- (if negb (cwd =? "") then
                 mkdir h cwd ;;
                 ret ("cd " ++ cwd ++ " && ")%string
               else ret "") ;;
   cmd_str <- (if set_env then
                 found <- file_exists h (env_sh_path h) ;;
                 ret (if found
                      then (cmd_str ++ "source " ++ env_sh_path h ++ " && ")%string
                      else cmd_str)
               else ret cmd_str) ;;
   ret (if negb (command_prelude h =? "")
        then (cmd_str ++ command_prelude h ++ " && ")%string
        else cmd_str))%monad.

(** * Properties *)

(** ** [shlex.split] *)

Example shlex_split_plain :
  Shlex.split "ssh -T  -l root" = Ok ["ssh"; "-T"; "-l"; "root"].
Proof. reflexivity. Qed.

Example shlex_split_quotes :
  Shlex.split "echo 'a b' e\ f ''" = Ok ["echo"; "a b"; "e f"; ""].
Proof. reflexivity. Qed.

Lemma append_snoc (tok : string) (c : ascii) (x : string) :
  (Shlex.snoc tok c ++ x = tok ++ String c x)%string.
Proof.
  unfold Shlex.snoc. induction tok as [|d tok IH]; simpl.
  - reflexivity.
  - now rewrite IH.
Qed.

Lemma append_empty_r (s : string) : (s ++ "" = s)%string.
Proof. induction s as [|c s IH]; simpl; [reflexivity | now rewrite IH]. Qed.

Lemma ordinary_classes (c : ascii) :
  ordinary c = true ->
  Shlex.whitespace c = false /\ Shlex.escape c = false /\ Shlex.quotes c = false.
Proof.
  unfold ordinary. intros H.
  apply andb_prop in H as [H Hq]. apply andb_prop in H as [Hw He].
  repeat split; now apply negb_true_iff.
Qed.

(** Inside a word, ordinary characters are appended to the token. *)
Lemma lex_word_ordinary (x : string) :
  forall tok quoted acc rest,
    all ordinary x = true ->
    Shlex.lex Shlex.SWord tok quoted acc (x ++ rest)
    = Shlex.lex Shlex.SWord (tok ++ x) quoted acc rest.
Proof.
  induction x as [|c x IH]; intros tok quoted acc rest H; simpl in *.
  - now rewrite append_empty_r.
  - apply andb_prop in H as [Hc Hx].
    destruct (ordinary_classes c Hc) as (Hw & He & Hq).
    rewrite Hw, He, Hq, IH by assumption.
    now rewrite append_snoc.
Qed.

(** A plain word met between tokens starts a token holding it. *)
Lemma lex_space_plain (x : string) :
  forall acc rest,
    plain x = true ->
    Shlex.lex Shlex.SSpace "" false acc (x ++ rest)
    = Shlex.lex Shlex.SWord x false acc rest.
Proof.
  intros acc rest H. unfold plain in H. apply andb_prop in H as [Hne H].
  destruct x as [|c x]; [discriminate|]. simpl in *.
  apply andb_prop in H as [Hc Hx].
  destruct (ordinary_classes c Hc) as (Hw & He & Hq).
  rewrite Hw, He, Hq.
  now rewrite lex_word_ordinary.
Qed.

Lemma split_plain (x : string) : plain x = true -> Shlex.split x = Ok [x].
Proof.
  intros H. unfold Shlex.split.
  rewrite <- (append_empty_r x) at 1.
  rewrite lex_space_plain by assumption. simpl. unfold Shlex.emit.
  unfold plain in H. apply andb_prop in H as [Hne _].
  apply negb_true_iff in Hne. now rewrite Hne.
Qed.

Lemma lex_quote_inside (q : ascii) (x : string) :
  forall tok quoted acc rest,
    all (inside q) x = true ->
    exists quoted',
      Shlex.lex (Shlex.SQuote q) tok quoted acc (x ++ rest)
      = Shlex.lex (Shlex.SQuote q) (tok ++ x) quoted' acc rest.
Proof.
  induction x as [|c x IH]; intros tok quoted acc rest H; simpl in *.
  - exists quoted. now rewrite append_empty_r.
  - apply andb_prop in H as [Hc Hx]. unfold inside in Hc.
    apply andb_prop in Hc as [Hq He].
    apply negb_true_iff in Hq, He. rewrite Hq, He.
    destruct (IH (Shlex.snoc tok c) true acc rest Hx) as [b Hb].
    exists b. now rewrite Hb, append_snoc.
Qed.

(** A quoted stretch that is closed gives one word. *)
Lemma lex_quote_closed (q : ascii) (x : string) :
  forall tok quoted acc,
    all (inside q) x = true ->
    Shlex.lex (Shlex.SQuote q) tok quoted acc (x ++ String q "")
    = Ok (acc ++ [(tok ++ x)%string]).
Proof.
  intros tok quoted acc H.
  destruct (lex_quote_inside q x tok quoted acc (String q "") H) as [b ->].
  simpl. now rewrite Ascii.eqb_refl.
Qed.






(** [shlex] raises nothing but [ValueError]. *)
Lemma lex_raises_ValueError (input : string) :
  forall st tok quoted acc e,
    Shlex.lex st tok quoted acc input = Raise e -> exists msg, e = ValueError msg.
Proof.
  induction input as [|c input IH]; intros st tok quoted acc e H.
  - destruct st; simpl in H; try discriminate; inversion H; eauto.
  - destruct st; simpl in H;
      repeat match type of H with
             | context [if ?b then _ else _] => destruct b
             end; eauto.
Qed.

Lemma split_raises_ValueError (x : string) (e : exn) :
  Shlex.split x = Raise e -> exists msg, e = ValueError msg.
Proof. apply lex_raises_ValueError. Qed.

(** ** [shlex.split] of a concatenation *)

Lemma lex_run_end (input : string) :
  forall st tok quoted acc,
    Shlex.lex st tok quoted acc input
    = lex_end (lex_run (st, tok, quoted, acc) input).
Proof.
  induction input as [|c input IH]; intros st tok quoted acc.
  - now destruct st.
  - cbn [lex_run Shlex.lex]. destruct st; cbn [lex_step];
      repeat match goal with
             | |- context [if ?b then _ else _] => destruct b
             end; apply IH.
Qed.

Lemma lex_run_app (a b : string) :
  forall k, lex_run k (a ++ b) = lex_run (lex_run k a) b.
Proof.
  induction a as [|c a IH]; intros k; cbn; [reflexivity | apply IH].
Qed.

Lemma lex_step_tidy (k : lex_config) (c : ascii) :
  lex_tidy k -> lex_tidy (lex_step k c).
Proof.
  destruct k as [[[st tok] quoted] acc]. destruct st as [| |q|e [| |q|e' back]];
    cbn [lex_tidy lex_step]; intros H;
    repeat match goal with
           | |- context [if ?b then _ else _] => destruct b eqn:?
           end; cbn [lex_tidy]; try tauto; try assumption.
  apply orb_false_elim in Heqb0 as [Ht Hq].
  apply negb_false_iff, String.eqb_eq in Ht. now split.
Qed.

Lemma lex_run_tidy (input : string) :
  forall k, lex_tidy k -> lex_tidy (lex_run k input).
Proof.
  induction input as [|c input IH]; intros k H; cbn; [assumption|].
  apply IH. now apply lex_step_tidy.
Qed.

(** Tokens already returned stay in front. *)
Lemma lex_step_acc (acc0 : list string) (st : Shlex.state) (tok : string)
      (quoted : bool) (acc : list string) (c : ascii) :
  lex_step (st, tok, quoted, acc0 ++ acc) c
  = let '(st', tok', quoted', acc') := lex_step (st, tok, quoted, acc) c in
    (st', tok', quoted', acc0 ++ acc').
Proof.
  destruct st; cbn [lex_step];
    repeat match goal with
           | |- context [if ?b then _ else _] => destruct b
           end; rewrite <- ?app_assoc; reflexivity.
Qed.

Lemma lex_run_acc (acc0 : list string) (input : string) :
  forall st tok quoted acc,
    lex_run (st, tok, quoted, acc0 ++ acc) input
    = let '(st', tok', quoted', acc') := lex_run (st, tok, quoted, acc) input in
      (st', tok', quoted', acc0 ++ acc').
Proof.
  induction input as [|c input IH]; intros st tok quoted acc; cbn [lex_run].
  - reflexivity.
  - rewrite lex_step_acc.
    destruct (lex_step (st, tok, quoted, acc) c) as [[[st' tok'] quoted'] acc'].
    apply IH.
Qed.

Lemma lex_acc (acc0 : list string) (input : string)
      (st : Shlex.state) (tok : string) (quoted : bool) (acc : list string) :
  Shlex.lex st tok quoted (acc0 ++ acc) input
  = (r <- Shlex.lex st tok quoted acc input ;; Ok (acc0 ++ r))%result.
Proof.
  rewrite !lex_run_end, lex_run_acc.
  destruct (lex_run (st, tok, quoted, acc) input) as [[[st' tok'] quoted'] acc'].
  destruct st'; cbn [lex_end rbind]; try reflexivity.
  unfold Shlex.emit. destruct (negb quoted' && (tok' =? ""));
    now rewrite ?app_assoc.
Qed.

(** After an input that ended between tokens, the rest is split on its
    own. *)
Lemma split_app_between (a b : string) (ws : list string) :
  lex_run lex_start a = (Shlex.SSpace, "", false, ws) ->
  Shlex.split (a ++ b) = (r <- Shlex.split b ;; Ok (ws ++ r))%result.
Proof.
  intros H. unfold Shlex.split. rewrite lex_run_end, lex_run_app.
  fold lex_start. rewrite H, <- lex_run_end.
  rewrite <- (app_nil_r ws) at 1. apply lex_acc.
Qed.

(** A space after an input that splits separates it from the rest. *)
Lemma split_app_space (s rest : string) (l : list string) :
  Shlex.split s = Ok l ->
  Shlex.split (s ++ String " " rest)
  = (r <- Shlex.split rest ;; Ok (l ++ r))%result.
Proof.
  unfold Shlex.split. intros H. rewrite lex_run_end in H. fold lex_start in H.
  rewrite lex_run_end, lex_run_app. fold lex_start. cbn [lex_run].
  pose proof (lex_run_tidy s lex_start (conj eq_refl eq_refl)) as Ht.
  destruct (lex_run lex_start s) as [[[st tok] quoted] acc].
  destruct st; cbn [lex_end] in H; try discriminate; inversion H; subst l;
    cbn [lex_step Shlex.whitespace Ascii.eqb Bool.eqb orb].
  - destruct Ht as [-> ->]. cbn [String.eqb negb orb].
    rewrite <- lex_run_end. rewrite <- (app_nil_r acc) at 1. apply lex_acc.
  - unfold Shlex.emit. destruct quoted; cbn [negb andb orb].
    + rewrite orb_true_r. rewrite <- lex_run_end.
      rewrite <- (app_nil_r (acc ++ [tok])) at 1. apply lex_acc.
    + rewrite orb_false_r. destruct (tok =? "") eqn:Et; cbn [negb].
      * apply String.eqb_eq in Et. subst tok. rewrite <- lex_run_end.
        rewrite <- (app_nil_r acc) at 1. apply lex_acc.
      * rewrite <- lex_run_end.
        rewrite <- (app_nil_r (acc ++ [tok])) at 1. apply lex_acc.
Qed.

(** ** [str.replace] and the double escaping *)

Lemma replace_absent (old : ascii) (new x : string) :
  count old x = 0%nat -> replace old new x = x.
Proof.
  induction x as [|c x IH]; simpl; intros H.
  - reflexivity.
  - destruct (c =? old)%char; [discriminate|]. now rewrite IH.
Qed.

Lemma count_ordinary (x : string) :
  all ordinary x = true ->
  count backslash x = 0%nat /\ count Shlex.dquote x = 0%nat.
Proof.
  induction x as [|c x IH]; simpl; intros H.
  - now split.
  - apply andb_prop in H as [Hc Hx].
    destruct (ordinary_classes c Hc) as (_ & He & Hq).
    unfold Shlex.escape in He. unfold Shlex.quotes in Hq.
    apply orb_false_elim in Hq as [_ Hq].
    unfold backslash. rewrite He, Hq. now apply IH.
Qed.

(** Applying the replacement twice turns each backslash into four. *)
Lemma escape_twice_quadruples (x : string) :
  escape_twice x = replace backslash "\\\\" x.
Proof.
  unfold escape_twice.
  induction x as [|c x IH]; simpl.
  - reflexivity.
  - destruct (c =? backslash)%char eqn:E; simpl.
    + now rewrite IH.
    + now rewrite E, IH.
Qed.

Lemma count_escape_twice (x : string) :
  count backslash (escape_twice x) = (4 * count backslash x)%nat.
Proof.
  rewrite escape_twice_quadruples.
  induction x as [|c x IH]; simpl.
  - reflexivity.
  - destruct (c =? backslash)%char eqn:E; simpl.
    + rewrite IH. lia.
    + rewrite E, IH. lia.
Qed.

Lemma escape_twice_plain (x : string) :
  all ordinary x = true -> escape_twice x = x.
Proof.
  intros H. destruct (count_ordinary x H) as [Hb _].
  unfold escape_twice.
  now rewrite 2!(replace_absent backslash _ x Hb).
Qed.

(** ** [mapM] *)

Lemma mapM_app {A B} (f : A -> result B) (l1 l2 : list A) :
  mapM f (l1 ++ l2)
  = (x <- mapM f l1 ;; y <- mapM f l2 ;; Ok (x ++ y))%result.
Proof.
  induction l1 as [|a l1 IH]; simpl.
  - destruct (mapM f l2); reflexivity.
  - destruct (f a); simpl; [|reflexivity].
    rewrite IH. destruct (mapM f l1); simpl; [|reflexivity].
    destruct (mapM f l2); reflexivity.
Qed.

Lemma mapM_Forall2 {A B} (f : A -> result B) (l : list A) :
  forall l', mapM f l = Ok l' -> Forall2 (fun x y => f x = Ok y) l l'.
Proof.
  induction l as [|a l IH]; simpl; intros l' H.
  - inversion H. constructor.
  - destruct (f a) eqn:Ea; simpl in H; [|discriminate].
    destruct (mapM f l) eqn:El; simpl in H; [|discriminate].
    inversion H; subst. constructor; auto.
Qed.


(** ** The transport argument vector *)

Lemma plain_nonempty (x : string) : plain x = true -> (x =? "") = false.
Proof.
  unfold plain. intros H. apply andb_prop in H as [H _].
  now apply negb_true_iff.
Qed.

Lemma plain_ordinary (x : string) : plain x = true -> all ordinary x = true.
Proof. unfold plain. intros H. now apply andb_prop in H as [_ H]. Qed.

(** With plain user, identity and hostname the template splits into the
    expected words. *)
Lemma split_template (user identity hostname : string) :
  plain user = true -> plain identity = true -> plain hostname = true ->
  Shlex.split (ssh_template user identity hostname)
  = Ok (transport_prefix user identity hostname).
Proof.
  intros Hu Hi Hh.
  pose proof (plain_nonempty _ Hu) as Eu.
  pose proof (plain_nonempty _ Hi) as Ei.
  pose proof (plain_nonempty _ Hh) as Eh.
  unfold Shlex.split, ssh_template. cbn.
  rewrite lex_space_plain by assumption. cbn. rewrite Eu. cbn.
  rewrite lex_space_plain by assumption. cbn. rewrite Ei. cbn.
  rewrite <- (append_empty_r hostname).
  rewrite lex_space_plain by assumption. cbn.
  unfold Shlex.emit. now rewrite Eh, append_empty_r.
Qed.

Lemma requote_plain (x : string) : plain x = true -> requote x = Ok x.
Proof. intros H. unfold requote. now rewrite split_plain. Qed.

Lemma requote_escape_plain (l : list string) :
  Forall (fun x => plain x = true) l ->
  mapM requote l = Ok l /\ map escape_twice l = l.
Proof.
  induction 1 as [|x l Hx Hl [IH1 IH2]]; simpl.
  - now split.
  - rewrite requote_plain, IH1, IH2 by assumption. simpl.
    now rewrite escape_twice_plain by now apply plain_ordinary.
Qed.

Lemma transport_prefix_plain (user identity hostname : string) :
  plain user = true -> plain identity = true -> plain hostname = true ->
  Forall (fun x => plain x = true) (transport_prefix user identity hostname).
Proof.
  intros Hu Hi Hh. unfold transport_prefix, transport_options.
  repeat (constructor; [assumption || reflexivity|]). constructor.
Qed.

(** X9: when user, identity and hostname are one plain word each (not
    empty, no whitespace, quote or backslash), the argument vector is the
    words [ssh -T -l user -i identity], the five [-o] options (no
    known-hosts file, ControlMaster=auto, no strict host key checking,
    ControlPersist=10m, a control path built from remote user, host and
    port), the hostname, and behind them the tokens of the command, quoted
    and escaped; no port option is among them. An identity left out is
    [~/.ssh/id_rsa]. *)
Theorem transport_vector_of_plain_fields
        (hostname user : string) (identity : option string)
        (cmd : option command) (l : list string) :
  plain user = true ->
  plain (chosen_identity identity) = true ->
  plain hostname = true ->
  command_words cmd = Ok (Some l) ->
  ssh_cmd hostname user identity cmd
  = (q <- mapM requote l ;;
     Ok (["ssh"; "-T"; "-l"; user; "-i"; chosen_identity identity;
          "-o"; "UserKnownHostsFile=/dev/null";
          "-o"; "ControlMaster=auto";
          "-o"; "StrictHostKeyChecking=no";
          "-o"; "ControlPersist=10m";
          "-o"; "ControlPath=/tmp/mytest-%r@%h:%p";
          hostname]
         ++ map escape_twice q))%result
  /\ (identity = None -> chosen_identity identity = "~/.ssh/id_rsa").
Proof.
  intros Hu Hi Hh Hcmd. split.
  - unfold ssh_cmd. rewrite Hcmd. cbn [rbind].
    rewrite split_template by assumption. cbn [rbind].
    rewrite mapM_app.
    destruct (requote_escape_plain _ (transport_prefix_plain _ _ _ Hu Hi Hh))
      as [-> Hesc].
    cbn [rbind]. destruct (mapM requote l) as [q|e]; cbn [rbind].
    + now rewrite map_app, Hesc.
    + reflexivity.
  - now intros ->.
Qed.

(** ** Quoting and escaping of the tokens *)

Lemma requote_one_word (x w : string) :
  Shlex.split x = Ok [w] -> requote x = Ok x.
Proof. intros H. unfold requote. now rewrite H. Qed.

Lemma requote_other (x : string) (ws : list string) :
  Shlex.split x = Ok ws -> length ws <> 1%nat ->
  requote x = Ok (double_quoted x).
Proof.
  intros H Hn. unfold requote. rewrite H. cbn [rbind].
  apply Nat.eqb_neq in Hn. now rewrite Hn.
Qed.

Lemma requote_raises (x : string) (e : exn) :
  requote x = Raise e -> Shlex.split x = Raise e.
Proof. unfold requote. destruct (Shlex.split x); simpl; congruence. Qed.

Lemma inside_dquote (x : string) :
  count Shlex.dquote x = 0%nat -> count backslash x = 0%nat ->
  all (inside Shlex.dquote) x = true.
Proof.
  induction x as [|c x IH]; simpl; intros Hq Hb.
  - reflexivity.
  - unfold inside at 1. unfold Shlex.escape. unfold backslash in Hb.
    destruct (c =? Shlex.dquote)%char; [discriminate|].
    destruct (c =? "\")%char; [discriminate|].
    simpl. now apply IH.
Qed.

(** A token free of double quotes and backslashes, once between double
    quotes, is one shell word again. *)
Lemma split_double_quoted (x : string) :
  count Shlex.dquote x = 0%nat -> count backslash x = 0%nat ->
  Shlex.split (double_quoted x) = Ok [x].
Proof.
  intros Hq Hb. unfold Shlex.split, double_quoted. cbn.
  now rewrite lex_quote_closed by now apply inside_dquote.
Qed.

(** The tokens of the vector before quoting: the words of the template, then
    those of the command. *)
Lemma ssh_cmd_tokens (hostname user : string) (identity : option string)
      (cmd : option command) (argv : list string) :
  ssh_cmd hostname user identity cmd = Ok argv ->
  exists prefix l quoted,
    Shlex.split (ssh_template user (chosen_identity identity) hostname) = Ok prefix
    /\ command_words cmd = Ok (Some l)
    /\ mapM requote (prefix ++ l) = Ok quoted
    /\ argv = map escape_twice quoted.
Proof.
  unfold ssh_cmd. intros H.
  destruct (command_words cmd) as [[l|]|] eqn:Ec; cbn [rbind] in H;
    try discriminate;
    destruct (Shlex.split _) as [prefix|] eqn:Ep; cbn [rbind] in H;
    try discriminate.
  destruct (mapM requote (prefix ++ l)) as [quoted|] eqn:Eq; cbn [rbind] in H;
    try discriminate.
  inversion H. now exists prefix, l, quoted.
Qed.

(** C4 (amended): every token of the vector goes through the quoting step and
    then has each of its backslashes turned into four (the replacement is
    applied twice). The quoting step leaves a token that splits into exactly
    one word unchanged and puts any other token between double quotes, which
    makes it one shell word again when it holds no double quote and no
    backslash. *)
Theorem tokens_requoted_then_backslashes_quadrupled :
  (forall hostname user identity cmd argv,
      ssh_cmd hostname user identity cmd = Ok argv ->
      exists prefix l,
        Shlex.split (ssh_template user (chosen_identity identity) hostname) = Ok prefix
        /\ command_words cmd = Ok (Some l)
        /\ Forall2 (fun x y => exists q, requote x = Ok q
                                       /\ y = replace backslash "\\\\" q
                                       /\ count backslash y = (4 * count backslash q)%nat)
                   (prefix ++ l) argv)
  /\ (forall x w, Shlex.split x = Ok [w] -> requote x = Ok x)
  /\ (forall x ws, Shlex.split x = Ok ws -> length ws <> 1%nat ->
                  requote x = Ok (double_quoted x))
  /\ (forall x, count Shlex.dquote x = 0%nat -> count backslash x = 0%nat ->
                Shlex.split (double_quoted x) = Ok [x]).
Proof.
  repeat apply conj.
  - intros hostname user identity cmd argv H.
    destruct (ssh_cmd_tokens _ _ _ _ _ H) as (prefix & l & quoted & Hp & Hc & Hq & ->).
    exists prefix, l. repeat split; try assumption.
    apply mapM_Forall2 in Hq. clear - Hq.
    induction Hq as [|x q xs qs Hx _ IH]; simpl; constructor; try assumption.
    exists q. rewrite <- escape_twice_quadruples.
    auto using count_escape_twice.
  - exact requote_one_word.
  - exact requote_other.
  - exact split_double_quoted.
Qed.

(** ** Construction that fails *)

(** When the vector cannot be built, [__init__] raises and leaves the world
    as it was: nothing is logged and no process is spawned. *)
Lemma init_raises_before_spawn (pkg : package) (hostname user : string)
      (identity : option string) (cmd : option command)
      (enc : option string) (lg : bool) (e : exn) (w : world) :
  ssh_cmd hostname user identity cmd = Raise e ->
  __init__ pkg hostname user identity cmd enc lg w = (Raise e, w).
Proof. intros H. unfold __init__, bind, lift. now rewrite H. Qed.





(** ** The drainers *)

Lemma run_to_end_finished (p : pipe) (t : Thread) :
  finished (snd (run_to_end p t)) = true.
Proof.
  unfold run_to_end. destruct (finished t) eqn:E; [exact E|].
  destruct (closed p); [reflexivity|].
  now destruct (_do_recv (pending p) (store t)).
Qed.

Lemma run_to_end_done (p : pipe) (t : Thread) :
  finished t = true -> run_to_end p t = (p, t).
Proof. intros H. unfold run_to_end. now rewrite H. Qed.

(** ** [wait] *)

Lemma drained_fields (c : SSHCommand) :
  status (cmd (drained c)) = status (cmd c)
  /\ returncode (drained c) = returncode c
  /\ encoding (drained c) = encoding c
  /\ logger (drained c) = logger c
  /\ out_data_ref (drained c) = out_data_ref c
  /\ err_data_ref (drained c) = err_data_ref c.
Proof. repeat split. Qed.

Lemma drained_threads (c : SSHCommand) :
  finished (out_thread (drained c)) = true
  /\ finished (err_thread (drained c)) = true
  /\ stdin_closed (cmd (drained c)) = true
  /\ closed (stdout (cmd (drained c))) = true
  /\ closed (stderr (cmd (drained c))) = true.
Proof.
  unfold drained, closing, joined. cbn [cmd out_thread err_thread with_cmd with_stdout
    with_stderr stdout stderr stdin_closed closed fst snd].
  repeat split; apply run_to_end_finished.
Qed.

Lemma waited_Finalized (c : SSHCommand) : Finalized (waited c).
Proof.
  destruct (drained_threads c) as (Ho & He & Hi & _).
  unfold Finalized, waited. cbn [with_returncode returncode cmd out_thread err_thread].
  auto.
Qed.

Lemma called_called (a b : list event) (w : world) :
  called b (called a w) = called (a ++ b) w.
Proof. unfold called. cbn. now rewrite app_assoc. Qed.

(** ** Closing stdin

    [close] raises only what the flush of the buffer raises: nothing on a
    closed file, nothing when the buffer is empty, [BrokenPipeError] when the
    pipe does not take what the buffer holds. *)

Lemma close_result_closed (c : SSHCommand) :
  stdin_closed (cmd c) = true -> close_result STDIN c = Ok tt.
Proof. intros H. unfold close_result, buffered_close. now rewrite H. Qed.

Lemma close_result_flushed (c : SSHCommand) :
  stdin_buffer (cmd c) = [] -> close_result STDIN c = Ok tt.
Proof.
  intros H. unfold close_result, buffered_close, flush_buffer. rewrite H.
  now destruct (stdin_closed (cmd c)).
Qed.

Lemma close_result_quiet (c : SSHCommand) :
  stdin_closed (cmd c) = true
  \/ stdin_buffer (cmd c) = []
  \/ takes (stdin_room (cmd c)) (length (stdin_buffer (cmd c))) = true ->
  close_result STDIN c = Ok tt.
Proof.
  intros [H | [H | H]].
  - now apply close_result_closed.
  - now apply close_result_flushed.
  - unfold close_result, buffered_close, flush_buffer, bind, pipe_write, modify.
    rewrite H.
    destruct (stdin_closed (cmd c)); [reflexivity|].
    now destruct (is_empty (stdin_buffer (cmd c))).
Qed.

Lemma close_result_stuck (c : SSHCommand) :
  stdin_closed (cmd c) = false ->
  stdin_buffer (cmd c) <> [] ->
  takes (stdin_room (cmd c)) (length (stdin_buffer (cmd c))) = false ->
  close_result STDIN c = Raise BrokenPipeError.
Proof.
  intros Ho Hb Ht. unfold close_result, buffered_close, flush_buffer. rewrite Ho.
  destruct (stdin_buffer (cmd c)) as [|b l] eqn:Eb; [contradiction|].
  cbn [is_empty]. unfold bind, pipe_write. rewrite Eb, Ht. reflexivity.
Qed.

(** The calls of [wait], one by one. *)
Lemma close_stream_run (s : fd) (c : SSHCommand) (w : world) :
  close_stream s (c, w) = (close_result s c, (closing s c, called [Close s] w)).
Proof. reflexivity. Qed.

Lemma join_thread_run (t : fd) (c : SSHCommand) (w : world) :
  join_thread t (c, w) = (Ok tt, (joined t c, called [Join t] w)).
Proof. reflexivity. Qed.

Lemma popen_wait_run (c : SSHCommand) (w : world) :
  popen_wait (c, w) = (Ok (status (cmd c)), (c, called [WaitProcess] w)).
Proof. reflexivity. Qed.

(** With an exit code stored that is not zero, [wait] only returns it. *)
Lemma wait_done (pkg : package) (c : SSHCommand) (w : world) :
  falsy (returncode c) = false ->
  wait pkg (c, w) = (Ok (returncode c), (c, w)).
Proof.
  intros H. unfold wait. unfold bind at 1. unfold self at 1. cbn [fst snd].
  rewrite H. reflexivity.
Qed.

(** When closing stdin raises, [wait] stops there: no thread is joined and
    no exit code stored. *)
Lemma wait_stuck (pkg : package) (c : SSHCommand) (w : world) (e : exn) :
  falsy (returncode c) = true ->
  close_result STDIN c = Raise e ->
  wait pkg (c, w) = (Raise e, (closing STDIN c, called [Close STDIN] w)).
Proof.
  intros H Hc. unfold wait. unfold bind at 1. unfold self at 1. cbn [fst snd].
  rewrite H. unfold bind. rewrite close_stream_run, Hc. reflexivity.
Qed.

(** pytest_multihost: with no exit code stored, or zero, [wait] runs its
    body. *)
Lemma wait_pytest (c : SSHCommand) (w : world) :
  falsy (returncode c) = true ->
  close_result STDIN c = Ok tt ->
  wait pytest_multihost (c, w)
  = (Ok (Some (status (cmd c))), (waited c, called wait_calls w)).
Proof.
  intros H Hc. unfold wait. unfold bind at 1. unfold self at 1. cbn [fst snd].
  rewrite H. unfold bind.
  rewrite close_stream_run, Hc. cbv beta iota.
  rewrite join_thread_run. cbv beta iota.
  rewrite close_stream_run. cbv beta iota. cbn [close_result].
  rewrite join_thread_run. cbv beta iota.
  rewrite close_stream_run. cbv beta iota. cbn [close_result].
  rewrite popen_wait_run. cbv beta iota.
  rewrite !called_called. reflexivity.
Qed.

Lemma log_run (pkg : package) (msg : string) (c : SSHCommand) (w : world) :
  log pkg msg (c, w) = (Ok tt, (c, logging (log_records pkg c msg) w)).
Proof.
  unfold log, bind, self, outside, log_with, log_records, logging. cbn [fst snd].
  destruct (logger c); [reflexivity|].
  destruct w. unfold ret. cbn. now rewrite app_nil_r.
Qed.

(** mytest_multihost: the body also logs the exit code and, when it is not
    zero, the text of stderr, whose decoding may raise. *)
Lemma wait_mytest (c : SSHCommand) (w : world) :
  falsy (returncode c) = true ->
  close_result STDIN c = Ok tt ->
  wait mytest_multihost (c, w)
  = let rc := status (cmd c) in
    let w1 := logging (log_records mytest_multihost c ("RETURNCODE " ++ str_of_int rc))
                      (called wait_calls w) in
    if (rc =? 0)%Z then (Ok (Some rc), (waited c, w1))
    else match stderr_text (waited c) with
         | Ok err =>
             (Ok (Some rc),
              (waited c, logging (log_records mytest_multihost c ("STDERR " ++ err)) w1))
         | Raise e => (Raise e, (waited c, w1))
         end.
Proof.
  intros H Hc. unfold wait. unfold bind at 1. unfold self at 1. cbn [fst snd].
  rewrite H. unfold bind.
  rewrite close_stream_run, Hc. cbv beta iota.
  rewrite join_thread_run. cbv beta iota.
  rewrite close_stream_run. cbv beta iota. cbn [close_result].
  rewrite join_thread_run. cbv beta iota.
  rewrite close_stream_run. cbv beta iota. cbn [close_result].
  rewrite popen_wait_run. cbv beta iota.
  rewrite !called_called.
  change (status (cmd (closing STDERR (joined STDERR (closing STDOUT
            (joined STDOUT (closing STDIN c))))))) with (status (cmd c)).
  unfold set_self at 1, modify at 1. cbn [fst snd].
  change (with_returncode (Some (status (cmd c)))
            (closing STDERR (joined STDERR (closing STDOUT
               (joined STDOUT (closing STDIN c)))))) with (waited c).
  rewrite log_run. cbv beta iota zeta.
  change (log_records mytest_multihost (waited c))
    with (log_records mytest_multihost c).
  destruct (status (cmd c) =? 0)%Z.
  - reflexivity.
  - unfold self at 1. cbn [fst snd]. unfold lift at 1.
    destruct (stderr_text (waited c)) as [err|e]; [|reflexivity].
    rewrite log_run. reflexivity.
Qed.

Lemma falsy_None_or_zero (rc : option Z) :
  falsy rc = true <-> rc = None \/ rc = Some 0%Z.
Proof.
  destruct rc as [n|]; simpl.
  - rewrite Z.eqb_eq. split.
    + intros ->. now right.
    + intros [H | H]; [discriminate | now inversion H].
  - split; auto.
Qed.

(** The loop of a drainer that [wait] has to wait for runs to its [break]:
    what it stored and what it left in the pipe are the outcome of
    [_do_recv]. *)
Lemma joined_runs_loop (c : SSHCommand) :
  (finished (out_thread c) = false -> closed (stdout (cmd c)) = false ->
   (pending (stdout (cmd (waited c))), store (out_thread (waited c)))
   = _do_recv (pending (stdout (cmd c))) (store (out_thread c)))
  /\ (finished (err_thread c) = false -> closed (stderr (cmd c)) = false ->
      (pending (stderr (cmd (waited c))), store (err_thread (waited c)))
      = _do_recv (pending (stderr (cmd c))) (store (err_thread c))).
Proof.
  unfold waited, drained, joined, closing, run_to_end.
  cbn -[buffered_close _do_recv].
  split; intros Hf Hc; rewrite Hf, Hc;
    now destruct (_do_recv _ _).
Qed.

(** The records [wait] logs when it runs its body: none in pytest_multihost;
    in mytest_multihost the exit code and, when it is not zero and stderr
    decodes, the text of stderr. *)
Lemma wait_runs_body (pkg : package) (c : SSHCommand) (w : world) :
  falsy (returncode c) = true ->
  close_result STDIN c = Ok tt ->
  exists w',
    wait pkg (c, w) = (wait_result pkg c, (waited c, w'))
    /\ calls w' = calls w ++ wait_calls
    /\ remote w' = remote w
    /\ logged w'
       = logged w
         ++ match pkg with
            | pytest_multihost => []
            | mytest_multihost =>
                log_records pkg c ("RETURNCODE " ++ str_of_int (status (cmd c)))
                ++ (if (status (cmd c) =? 0)%Z then []
                    else match stderr_text (waited c) with
                         | Ok err => log_records pkg c ("STDERR " ++ err)
                         | Raise _ => []
                         end)
            end.
Proof.
  intros H Hc. destruct pkg.
  - rewrite wait_mytest by assumption. unfold wait_result. cbv zeta.
    destruct (status (cmd c) =? 0)%Z.
    + eexists. split; [reflexivity|]. cbn [logging called calls remote logged].
      now rewrite app_nil_r.
    + destruct (stderr_text (waited c)); cbn [rbind];
        (eexists; split; [reflexivity|]; cbn [logging called calls remote logged];
         rewrite <- ?app_assoc, ?app_nil_r; auto).
  - rewrite wait_pytest by assumption. eexists. split; [reflexivity|].
    cbn [called calls remote logged]. now rewrite app_nil_r.
Qed.

(** C2 (amended): on a command with no exit code yet whose stdin closes
    without an error (it is closed already, or nothing is left in its
    buffer, or the pipe takes what is left), [wait] closes stdin, joins the
    stdout drainer, closes stdout, joins the stderr drainer, closes stderr
    and waits for the process, in this order and nothing else; the exit
    status is then stored, both drainers have ended (a drainer that was
    still reading an open pipe has run its loop to the [break]), and the
    status is returned. pytest_multihost logs nothing. mytest_multihost
    decodes stderr after a status other than zero, and when that fails the
    decoding error is raised instead of the status being returned, with the
    status stored; when a logger was given, it logs [CMD RETURNCODE n] at
    level DEBUG and, for a status other than zero whose stderr decodes,
    [CMD STDERR text] after it. When the buffer of an open stdin still holds
    what a failed [send] left there and the pipe does not take it, closing
    stdin raises [BrokenPipeError]: [wait] has closed stdin and made no
    other call, no drainer is joined and no exit code stored. *)
Theorem wait_order_and_result (pkg : package) (c : SSHCommand) (w : world) :
  returncode c = None ->
  (stdin_closed (cmd c) = true
   \/ stdin_buffer (cmd c) = []
   \/ takes (stdin_room (cmd c)) (length (stdin_buffer (cmd c))) = true ->
   exists w',
     wait pkg (c, w) = (wait_result pkg c, (waited c, w'))
     /\ calls w'
        = calls w ++ [Close STDIN; Join STDOUT; Close STDOUT;
                      Join STDERR; Close STDERR; WaitProcess]
     /\ returncode (waited c) = Some (status (cmd c))
     /\ finished (out_thread (waited c)) = true
     /\ finished (err_thread (waited c)) = true
     /\ (finished (out_thread c) = false -> closed (stdout (cmd c)) = false ->
         (pending (stdout (cmd (waited c))), store (out_thread (waited c)))
         = _do_recv (pending (stdout (cmd c))) (store (out_thread c)))
     /\ (finished (err_thread c) = false -> closed (stderr (cmd c)) = false ->
         (pending (stderr (cmd (waited c))), store (err_thread (waited c)))
         = _do_recv (pending (stderr (cmd c))) (store (err_thread c)))
     /\ (pkg = pytest_multihost \/ status (cmd c) = 0%Z
         \/ (exists err, stderr_text (waited c) = Ok err) ->
         wait_result pkg c = Ok (Some (status (cmd c))))
     /\ (pkg = mytest_multihost -> status (cmd c) <> 0%Z ->
         forall e, stderr_text (waited c) = Raise e ->
                   wait_result pkg c = Raise e)
     /\ (pkg = pytest_multihost \/ logger c = false -> logged w' = logged w)
     /\ (pkg = mytest_multihost -> logger c = true ->
         logged w'
         = logged w
           ++ mkLog DEBUG ("CMD RETURNCODE " ++ str_of_int (status (cmd c)))
              :: (if (status (cmd c) =? 0)%Z then []
                  else match stderr_text (waited c) with
                       | Ok err => [mkLog DEBUG ("CMD STDERR " ++ err)]
                       | Raise _ => []
                       end)))
  /\ (stdin_closed (cmd c) = false ->
      stdin_buffer (cmd c) <> [] ->
      takes (stdin_room (cmd c)) (length (stdin_buffer (cmd c))) = false ->
      exists c' w',
        wait pkg (c, w) = (Raise BrokenPipeError, (c', w'))
        /\ calls w' = calls w ++ [Close STDIN]
        /\ logged w' = logged w
        /\ returncode c' = None
        /\ stdin_closed (cmd c') = true
        /\ out_thread c' = out_thread c
        /\ err_thread c' = err_thread c).
Proof.
  intros H. split.
  - intros Hb.
    destruct (wait_runs_body pkg c w) as (w' & Hw & Hc & _ & Hl).
    { rewrite H. reflexivity. }
    { now apply close_result_quiet. }
    destruct (waited_Finalized c) as (Hrc & Ho & He & _).
    destruct (joined_runs_loop c) as [Hout Herr].
    exists w'. repeat split; try assumption.
    + intros [-> | [Hz | [err Herr']]].
      * reflexivity.
      * unfold wait_result. rewrite Hz. now destruct pkg.
      * unfold wait_result. rewrite Herr'. cbn [rbind].
        destruct pkg; [|reflexivity]. now destruct (_ =? _)%Z.
    + intros -> Hnz e Hraise. unfold wait_result. rewrite Hraise.
      apply Z.eqb_neq in Hnz. now rewrite Hnz.
    + intros [-> | Hlg]; rewrite Hl.
      * now rewrite app_nil_r.
      * destruct pkg; [|now rewrite app_nil_r].
        unfold log_records. rewrite Hlg. cbn [app].
        destruct (_ =? _)%Z; [now rewrite app_nil_r|].
        destruct (stderr_text _); now rewrite app_nil_r.
    + intros -> Hlg. rewrite Hl. unfold log_records. rewrite Hlg. cbn [app].
      destruct (_ =? _)%Z; [reflexivity|].
      now destruct (stderr_text _).
  - intros Ho Hb Ht.
    exists (closing STDIN c), (called [Close STDIN] w).
    split.
    + apply wait_stuck; [now rewrite H | now apply close_result_stuck].
    + repeat split. exact H.
Qed.

(** Joining a drainer that has ended changes nothing. *)
Lemma waited_of_Finalized (c : SSHCommand) :
  Finalized c ->
  out_data (waited c) = out_data c
  /\ err_data (waited c) = err_data c
  /\ returncode (waited c) = returncode c.
Proof.
  intros (Hrc & Ho & He & _).
  unfold waited, drained, joined, closing, out_data, err_data, deref.
  cbn -[buffered_close run_to_end].
  rewrite !run_to_end_done by assumption. cbn -[buffered_close].
  rewrite Hrc. repeat split.
Qed.

(** C1, where the code departs from the claim: when the first [wait]
    returned zero, the second one runs the close and join calls again (and
    returns zero again). The command is one whose stdin closes without an
    error: it is closed already, or nothing is left in its buffer, as on
    every command that no [send] failed on, or the pipe takes what is
    left. *)
Theorem wait_twice_exit_zero_repeats_calls
        (pkg : package) (c : SSHCommand) (w : world) :
  returncode c = None ->
  stdin_closed (cmd c) = true
  \/ stdin_buffer (cmd c) = []
  \/ takes (stdin_room (cmd c)) (length (stdin_buffer (cmd c))) = true ->
  status (cmd c) = 0%Z ->
  exists w1 c2 w2,
    wait pkg (c, w) = (Ok (Some 0%Z), (waited c, w1))
    /\ wait pkg (waited c, w1) = (Ok (Some 0%Z), (c2, w2))
    /\ calls w1 = calls w ++ wait_calls
    /\ calls w2 = calls w1 ++ wait_calls.
Proof.
  intros Hrc Hb Hz.
  destruct (wait_runs_body pkg c w) as (w1 & H1 & Hc1 & _).
  { now rewrite Hrc. }
  { now apply close_result_quiet. }
  assert (Hr : forall d, status (cmd d) = 0%Z -> wait_result pkg d = Ok (Some 0%Z)).
  { intros d Hd. unfold wait_result. rewrite Hd. now destruct pkg. }
  destruct (wait_runs_body pkg (waited c) w1) as (w2 & H2 & Hc2 & _).
  { change (returncode (waited c)) with (Some (status (cmd c))).
    rewrite Hz. reflexivity. }
  { apply close_result_closed. apply (waited_Finalized c). }
  exists w1, (waited (waited c)), w2.
  rewrite H1, H2, (Hr c Hz), (Hr (waited c) Hz). auto.
Qed.

(** When the first [wait] returned an exit code other than zero, the second
    one returns it again and makes no call. *)
Lemma wait_twice_exit_nonzero (pkg : package) (c : SSHCommand) (w : world)
      (rc : option Z) (c1 : SSHCommand) (w1 : world) :
  returncode c = None ->
  stdin_buffer (cmd c) = [] ->
  status (cmd c) <> 0%Z ->
  wait pkg (c, w) = (Ok rc, (c1, w1)) ->
  rc = Some (status (cmd c)) /\ wait pkg (c1, w1) = (Ok rc, (c1, w1)).
Proof.
  intros Hrc Hb Hnz H1.
  destruct (wait_runs_body pkg c w) as (w' & H & _).
  { now rewrite Hrc. }
  { now apply close_result_flushed. }
  rewrite H in H1. inversion H1; subst c1 w1. clear H1.
  assert (Hrc' : rc = Some (status (cmd c))).
  { unfold wait_result in *. destruct pkg; [|congruence].
    destruct (_ =? _)%Z; [congruence|].
    destruct (stderr_text _); cbn [rbind] in *; congruence. }
  split; [assumption|].
  rewrite wait_done.
  - change (returncode (waited c)) with (Some (status (cmd c))).
    now rewrite H2, Hrc'.
  - change (returncode (waited c)) with (Some (status (cmd c))). cbn.
    now apply Z.eqb_neq.
Qed.

(** ** The accessors *)

Lemma init_returncode (pkg : package) (hostname user : string)
      (identity : option string) (cmd : option command)
      (enc : option string) (lg : bool) (w w' : world) (c : SSHCommand) :
  __init__ pkg hostname user identity cmd enc lg w = (Ok c, w') ->
  returncode c = None /\ encoding c = enc /\ logger c = lg
  /\ finished (out_thread c) = false /\ finished (err_thread c) = false
  /\ out_data c = [] /\ err_data c = [].
Proof.
  unfold __init__, bind, lift, log_with, emit_log, emit_call, modify, ret.
  destruct (ssh_cmd hostname user identity cmd) as [argv|]; [|discriminate].
  destruct lg; cbn [remote logged calls];
    (destruct (popen argv (remote w)) as [[p|] rem]; [|discriminate];
     intros H; inversion H; subst; repeat split).
Qed.

(** C7: while no exit code is stored, [stdout_text] and [stderr_text] return
    the empty string and raise nothing. *)
Theorem accessors_empty_before_wait (c : SSHCommand) :
  returncode c = None ->
  stdout_text c = Ok (PyStr "") /\ stderr_text c = Ok "".
Proof.
  intros H. unfold stdout_text, stderr_text. now rewrite H.
Qed.




(** Without an encoding, [stderr_text] decodes with the default codec and
    [stdout_text] returns bytes. *)
Lemma accessors_without_encoding (c : SSHCommand) (rc : Z) :
  returncode c = Some rc ->
  truthy (encoding c) = false ->
  stdout_text c = Ok (PyBytes (join (out_data c)))
  /\ stderr_text c = py_decode "utf-8" (join (err_data c)).
Proof.
  intros Hrc He. unfold stdout_text, stderr_text, codec. rewrite Hrc, He.
  split; [reflexivity|]. now destruct (encoding c).
Qed.

(** ** What the methods change of the result *)

Lemma wait_keeps_finalized_result (pkg : package) (c : SSHCommand) (w : world)
      (r : result (option Z)) (c' : SSHCommand) (w' : world) :
  Finalized c ->
  wait pkg (c, w) = (r, (c', w')) ->
  out_data c' = out_data c /\ err_data c' = err_data c
  /\ returncode c' = returncode c.
Proof.
  intros HF H. destruct (falsy (returncode c)) eqn:E.
  - destruct (wait_runs_body pkg c w E) as (w1 & H1 & _).
    { apply close_result_closed. apply HF. }
    rewrite H1 in H. inversion H; subst. now apply waited_of_Finalized.
  - rewrite wait_done in H by assumption. inversion H; subst. auto.
Qed.

(** [send] touches the stdin of the process only. *)
Lemma send_keeps_result (d : option pyval) (c : SSHCommand) (w : world)
      (r : result unit) (c' : SSHCommand) (w' : world) :
  send d (c, w) = (r, (c', w')) ->
  out_data c' = out_data c /\ err_data c' = err_data c
  /\ returncode c' = returncode c.
Proof.
  assert (Hgo : forall raw,
             (stdin_write raw ;; stdin_flush)%monad (c, w) = (r, (c', w')) ->
             out_data c' = out_data c /\ err_data c' = err_data c
             /\ returncode c' = returncode c).
  { intros raw. unfold stdin_write, stdin_flush, on_cmd, outside, emit_call,
      modify, bind. cbn [fst snd].
    destruct (buffered_write raw (cmd c)) as [[[]|e] k1]; cbn [fst snd with_cmd cmd].
    - destruct (buffered_flush k1) as [[[]|e] k2];
        intros H; inversion H; subst; repeat split.
    - intros H. inversion H; subst. repeat split. }
  unfold send.
  destruct d as [[s|b]|].
  - destruct s as [|a s].
    + intros H. inversion H; subst. auto.
    + unfold bind at 1. unfold self at 1. cbn [fst snd].
      unfold bind at 1. unfold lift at 1.
      destruct (py_encode _ _) as [raw|e].
      * apply Hgo.
      * intros H. inversion H; subst. auto.
  - destruct b as [|a b].
    + intros H. inversion H; subst. auto.
    + unfold bind at 1. unfold self at 1. cbn [fst snd].
      unfold bind at 1. unfold ret at 1. apply Hgo.
  - intros H. inversion H; subst. auto.
Qed.

(** The setter of mytest_multihost puts a new list in place of the chunks of
    stdout: the encoded value alone, or nothing when the encoding raises. *)
Lemma set_stdout_text_replaces (v : string) (c : SSHCommand) (w : world) :
  set_stdout_text v (c, w)
  = match py_encode (codec (encoding c)) v with
    | Ok raw => (Ok tt, (with_out_data (Fresh [raw]) c, w))
    | Raise e => (Raise e, (with_out_data (Fresh []) c, w))
    end.
Proof.
  unfold set_stdout_text, set_self, modify, self, lift, bind. cbn [fst snd].
  change (encoding (with_out_data (Fresh []) c)) with (encoding c).
  now destruct (py_encode _ _).
Qed.

(** C8 (amended): once a command is finalized, [wait] and [send] change
    neither the chunks of stdout, nor those of stderr, nor the exit code
    (the two getters are functions of the object and change nothing); the
    setter of [stdout_text] in mytest_multihost replaces the chunks of stdout
    by the encoded value and leaves the chunks of stderr and the exit code as
    they are. *)
Theorem finalized_result_changed_only_by_setter (c : SSHCommand) (w : world) :
  Finalized c ->
  (forall pkg r c' w',
      wait pkg (c, w) = (r, (c', w')) ->
      out_data c' = out_data c /\ err_data c' = err_data c
      /\ returncode c' = returncode c)
  /\ (forall d r c' w',
         send d (c, w) = (r, (c', w')) ->
         out_data c' = out_data c /\ err_data c' = err_data c
         /\ returncode c' = returncode c)
  /\ (forall v r c' w',
         set_stdout_text v (c, w) = (r, (c', w')) ->
         out_data c' = match py_encode (codec (encoding c)) v with
                       | Ok raw => [raw]
                       | Raise _ => []
                       end
         /\ err_data c' = err_data c
         /\ returncode c' = returncode c).
Proof.
  intros HF. repeat apply conj.
  - intros pkg r c' w'. now apply wait_keeps_finalized_result.
  - intros d r c' w'. apply send_keeps_result.
  - intros v r c' w' H. rewrite set_stdout_text_replaces in H.
    destruct (py_encode _ _); inversion H; subst; repeat split.
Qed.

(** ** The host facade *)

Lemma spawned_after_command (w w' : world) (argv : list string) :
  calls w' = calls w ++ [Spawn argv; Start STDOUT; Start STDERR] ++ wait_calls ->
  spawned w' = spawned w ++ [argv].
Proof.
  intros H. unfold spawned. rewrite H, flat_map_app. reflexivity.
Qed.

(** A foreground command without input, from the vector and the process:
    it comes back after [wait], with exit code and stderr logged, unless the
    exit code is not zero and stderr fails to decode. *)
Lemma exec_command_foreground_runs (h : BaseHost) (command : command)
      (enc : option string) (w : world) (argv : list string) (p : process)
      (rem : W) :
  ssh_cmd (hostname h) (ssh_username h) (ssh_key_filename h) (Some command)
  = Ok argv ->
  popen argv (remote w) = (Ok p, rem) ->
  _exec_command h command None false enc w
  = let c := waited (fresh_command argv p enc true) in
    let w1 := mkWorld rem
                (logged w ++ [mkLog INFO ("CMD " ++ py_repr argv);
                              mkLog INFO ("RETURNCODE " ++ str_of_int (exit_status p))])
                (calls w ++ [Spawn argv; Start STDOUT; Start STDERR] ++ wait_calls) in
    if (exit_status p =? 0)%Z then (Ok c, w1)
    else match stderr_text c with
         | Ok text => (Ok c, logging [mkLog INFO ("STDERR " ++ text)] w1)
         | Raise e => (Raise e, w1)
         end.
Proof.
  intros Hv Hp. unfold _exec_command. unfold bind at 1.
  unfold __init__, bind, lift, log_with, emit_log, emit_call, modify, ret.
  rewrite Hv. cbn [remote logged calls]. rewrite Hp. cbn [remote logged calls].
  unfold on_command, truthy_data, negb.
  rewrite wait_pytest by reflexivity.
  unfold self, log_info, outside, emit_log, modify. cbn [fst snd].
  set (c1 := waited (fresh_command argv p enc true)).
  change (returncode c1) with (Some (exit_status p)).
  cbn [falsy format_returncode]. cbv zeta.
  unfold called, logging. cbn [remote logged calls].
  rewrite <- !app_assoc. cbn [app].
  destruct (exit_status p =? 0)%Z; cbn [negb].
  - reflexivity.
  - destruct (stderr_text c1); cbn [fst snd remote logged calls];
      rewrite <- ?app_assoc; reflexivity.
Qed.

(** What the getters see of a process once [wait] has run. *)
Lemma waited_fresh_data (argv : list string) (p : process)
      (enc : option string) (lg : bool) :
  join (out_data (waited (fresh_command argv p enc lg))) = drain (writes_stdout p)
  /\ join (err_data (waited (fresh_command argv p enc lg))) = drain (writes_stderr p)
  /\ stderr_text (waited (fresh_command argv p enc lg))
     = py_decode (codec enc) (drain (writes_stderr p)).
Proof.
  unfold stderr_text, drain, out_data, err_data, deref, waited, drained, joined,
    closing, run_to_end. cbn.
  destruct (_do_recv (writes_stdout p) []), (_do_recv (writes_stderr p) []).
  repeat split.
Qed.

(** The same, keeping of the world only what was spawned. *)
Lemma exec_command_outcome (h : BaseHost) (command : command)
      (enc : option string) (w : world) (argv : list string) (p : process)
      (rem : W) :
  ssh_cmd (hostname h) (ssh_username h) (ssh_key_filename h) (Some command)
  = Ok argv ->
  popen argv (remote w) = (Ok p, rem) ->
  exists w',
    _exec_command h command None false enc w
    = ((if (exit_status p =? 0)%Z
        then Ok (waited (fresh_command argv p enc true))
        else (_ <- py_decode (codec enc) (drain (writes_stderr p)) ;;
              Ok (waited (fresh_command argv p enc true)))%result),
       w')
    /\ remote w' = rem
    /\ spawned w' = spawned w ++ [argv].
Proof.
  intros Hv Hp. rewrite (exec_command_foreground_runs _ _ _ _ _ _ _ Hv Hp).
  cbv zeta. destruct (waited_fresh_data argv p enc true) as (_ & _ & ->).
  destruct (exit_status p =? 0)%Z; [|destruct (py_decode _ _)]; cbn [rbind];
    (eexists; split; [reflexivity|]; split; [reflexivity|];
     apply spawned_after_command; reflexivity).
Qed.

(** With a command given, building the vector fails in [shlex] only. *)
Lemma mapM_requote_raises (l : list string) (e : exn) :
  mapM requote l = Raise e -> exists msg, e = ValueError msg.
Proof.
  induction l as [|x l IH]; cbn [mapM]; [discriminate|].
  destruct (requote x) as [y|e0] eqn:Ex; cbn [rbind].
  - destruct (mapM requote l) as [ys|e1]; cbn [rbind]; [discriminate|].
    intros H. inversion H; subst. now apply IH.
  - intros H. inversion H; subst.
    apply (split_raises_ValueError x). now apply requote_raises.
Qed.

Lemma ssh_cmd_raises_ValueError (hostname user : string)
      (identity : option string) (cmd : command) (e : exn) :
  ssh_cmd hostname user identity (Some cmd) = Raise e ->
  exists msg, e = ValueError msg.
Proof.
  unfold ssh_cmd.
  assert (Hgo : forall l,
             (prefix <- Shlex.split (ssh_template user (chosen_identity identity)
                                                  hostname) ;;
              argv <- Ok (prefix ++ l) ;;
              argv <- mapM requote argv ;;
              Ok (map escape_twice argv))%result = Raise e ->
             exists msg, e = ValueError msg).
  { intros l. destruct (Shlex.split _) as [prefix|e0] eqn:Ep; cbn [rbind].
    - destruct (mapM requote (prefix ++ l)) as [q|e1] eqn:Eq; cbn [rbind];
        [discriminate|].
      intros H. inversion H; subst. now apply (mapM_requote_raises _ _ Eq).
    - intros H. inversion H; subst. now apply (split_raises_ValueError _ _ Ep). }
  destruct cmd as [s|l]; cbn [command_words].
  - destruct (Shlex.split s) as [l|e0] eqn:Es; cbn [rbind].
    + apply Hgo.
    + intros H. inversion H; subst. now apply (split_raises_ValueError _ _ Es).
  - cbn [rbind]. apply Hgo.
Qed.

(** A command whose vector cannot be built leaves no trace. *)
Lemma exec_command_unbuilt (h : BaseHost) (command : command)
      (data : option pyval) (bg : bool) (enc : option string) (w : world)
      (e : exn) :
  ssh_cmd (hostname h) (ssh_username h) (ssh_key_filename h) (Some command)
  = Raise e ->
  _exec_command h command data bg enc w = (Raise e, w).
Proof.
  intros H. unfold _exec_command. unfold bind at 1.
  now rewrite (init_raises_before_spawn _ _ _ _ _ enc true _ w H).
Qed.

(** A command that [Popen] cannot start is logged and that is all. *)
Lemma exec_command_unspawned (h : BaseHost) (command : command)
      (data : option pyval) (bg : bool) (enc : option string) (w : world)
      (argv : list string) (e : exn) (rem : W) :
  ssh_cmd (hostname h) (ssh_username h) (ssh_key_filename h) (Some command)
  = Ok argv ->
  popen argv (remote w) = (Raise e, rem) ->
  _exec_command h command data bg enc w
  = (Raise e, mkWorld rem (logged w ++ [mkLog INFO ("CMD " ++ py_repr argv)])
                      (calls w)).
Proof.
  intros Hv Hp. unfold _exec_command. unfold bind at 1.
  unfold __init__, bind, lift, log_with, emit_log, emit_call, modify, ret.
  rewrite Hv. cbn [remote logged calls]. rewrite Hp. reflexivity.
Qed.

(** The line [cat filename] gives a vector whenever [test -f filename]
    does: both are split into the words of [filename] behind their own. *)
Lemma read_vector_exists (hostname user : string) (identity : option string)
      (filename : string) (probe : list string) :
  ssh_cmd hostname user identity (Some (CmdStr ("test -f " ++ filename)))
  = Ok probe ->
  exists read,
    ssh_cmd hostname user identity (Some (CmdStr ("cat " ++ filename))) = Ok read.
Proof.
  unfold ssh_cmd. cbn [command_words].
  change ("test -f " ++ filename)%string
    with ("test -f" ++ String " " filename)%string.
  change ("cat " ++ filename)%string with ("cat" ++ String " " filename)%string.
  rewrite (split_app_space "test -f" filename ["test"; "-f"] eq_refl).
  rewrite (split_app_space "cat" filename ["cat"] eq_refl).
  destruct (Shlex.split filename) as [r|e]; cbn [rbind]; [|discriminate].
  destruct (Shlex.split (ssh_template _ _ _)) as [prefix|e]; cbn [rbind];
    [|discriminate].
  rewrite !mapM_app.
  destruct (mapM requote prefix) as [qp|e]; cbn [rbind]; [|discriminate].
  cbn [app mapM].
  rewrite (requote_plain "test" eq_refl), (requote_plain "-f" eq_refl),
    (requote_plain "cat" eq_refl).
  cbn [rbind].
  destruct (mapM requote r) as [qr|e]; cbn [rbind]; [|discriminate].
  intros _. eauto.
Qed.

Lemma file_exists_run (h : BaseHost) (filename : string) (w : world) :
  file_exists h filename w
  = match _exec_command h (CmdStr ("test -f " ++ filename)) None false
                        default_encoding
                        (logging [mkLog INFO ("STAT " ++ filename)] w) with
    | (Ok c, w1) =>
        (Ok (match returncode c with Some 0%Z => true | _ => false end), w1)
    | (Raise e, w1) => (Raise e, w1)
    end.
Proof.
  unfold file_exists. unfold bind at 1. unfold log_info at 1, emit_log, modify.
  unfold bind, logging, ret.
  now destruct (_exec_command _ _ _ _ _ _) as [[c|e] w1].
Qed.

Lemma get_file_contents_run (h : BaseHost) (filename : string)
      (encoding : option string) (w : world) :
  get_file_contents h filename encoding w
  = match file_exists h filename w with
    | (Raise e, w1) => (Raise e, w1)
    | (Ok false, w1) => (Raise IOError, w1)
    | (Ok true, w1) =>
        match _exec_command h (CmdStr ("cat " ++ filename)) None false None
                            (logging [mkLog INFO ("GET " ++ filename)] w1) with
        | (Raise e, w2) => (Raise e, w2)
        | (Ok c, w2) =>
            ((if negb (falsy (returncode c)) then Ok None
              else if truthy encoding
                   then (s <- py_decode (codec encoding) (join (out_data c)) ;;
                         Ok (Some (PyStr s)))%result
                   else Ok (Some (PyBytes (join (out_data c))))),
             w2)
        end
    end.
Proof.
  unfold get_file_contents. unfold bind at 1.
  destruct (file_exists h filename w) as [[[|]|e] w1]; cbn [negb];
    try reflexivity.
  unfold bind at 1. unfold log_info at 1, emit_log, modify.
  unfold bind at 1. unfold logging.
  destruct (_exec_command _ _ _ _ _ _) as [[c|e] w2]; [|reflexivity].
  destruct (negb (falsy (returncode c))); [reflexivity|].
  destruct (truthy encoding); [|reflexivity].
  unfold bind, lift, ret. now destruct (py_decode _ _).
Qed.

Lemma spawned_logging (rs : list log_record) (w : world) :
  spawned (logging rs w) = spawned w.
Proof. reflexivity. Qed.

(** C6 (amended): [get_file_contents] starts with the vector of the line
    [test -f filename]. When [shlex] cannot split that line, [ValueError] is
    raised and no process is spawned; when [Popen] cannot start the vector,
    what it raises is raised. Otherwise the probe is the first process
    spawned. If it exits with a code other than zero, [IOError] is raised
    when its stderr decodes as UTF-8, and the decoding error when it does
    not; the probe is then the only process spawned, no read command runs.
    If it exits with zero, the line [cat filename] has a vector, which is
    spawned as the second and last process; when that process exits with
    zero the result is what it wrote to stdout, decoded when an encoding is
    given (a decoding error being raised); when it exits with another code
    the result is [None] if its stderr decodes as UTF-8, and the decoding
    error is raised if not. *)
Theorem get_file_contents_probes_then_reads
        (h : BaseHost) (filename : string) (encoding : option string)
        (w : world) :
  (forall e,
      ssh_cmd (hostname h) (ssh_username h) (ssh_key_filename h)
              (Some (CmdStr ("test -f " ++ filename))) = Raise e ->
      (exists msg, e = ValueError msg)
      /\ exists w1,
          get_file_contents h filename encoding w = (Raise e, w1)
          /\ remote w1 = remote w
          /\ spawned w1 = spawned w)
  /\ (forall probe,
         ssh_cmd (hostname h) (ssh_username h) (ssh_key_filename h)
                 (Some (CmdStr ("test -f " ++ filename))) = Ok probe ->
         (forall e rem,
             popen probe (remote w) = (Raise e, rem) ->
             exists w1,
               get_file_contents h filename encoding w = (Raise e, w1)
               /\ spawned w1 = spawned w)
         /\ (forall p rem,
                popen probe (remote w) = (Ok p, rem) ->
                (exit_status p <> 0%Z ->
                 (forall text,
                     py_decode "utf-8" (drain (writes_stderr p)) = Ok text ->
                     exists w1,
                       get_file_contents h filename encoding w = (Raise IOError, w1)
                       /\ spawned w1 = spawned w ++ [probe])
                 /\ (forall e,
                        py_decode "utf-8" (drain (writes_stderr p)) = Raise e ->
                        exists w1,
                          get_file_contents h filename encoding w = (Raise e, w1)
                          /\ spawned w1 = spawned w ++ [probe]))
                /\ (exit_status p = 0%Z ->
                    exists read,
                      ssh_cmd (hostname h) (ssh_username h) (ssh_key_filename h)
                              (Some (CmdStr ("cat " ++ filename))) = Ok read
                      /\ (forall e rem',
                             popen read rem = (Raise e, rem') ->
                             exists w2,
                               get_file_contents h filename encoding w = (Raise e, w2)
                               /\ spawned w2 = spawned w ++ [probe])
                      /\ (forall q rem',
                             popen read rem = (Ok q, rem') ->
                             (exit_status q = 0%Z ->
                              exists w2,
                                get_file_contents h filename encoding w
                                = ((if truthy encoding
                                    then (s <- py_decode (codec encoding)
                                                         (drain (writes_stdout q)) ;;
                                          Ok (Some (PyStr s)))%result
                                    else Ok (Some (PyBytes (drain (writes_stdout q))))),
                                   w2)
                                /\ spawned w2 = spawned w ++ [probe; read])
                             /\ (exit_status q <> 0%Z ->
                                 (forall text,
                                     py_decode "utf-8" (drain (writes_stderr q)) = Ok text ->
                                     exists w2,
                                       get_file_contents h filename encoding w
                                       = (Ok None, w2)
                                       /\ spawned w2 = spawned w ++ [probe; read])
                                 /\ (forall e,
                                        py_decode "utf-8" (drain (writes_stderr q))
                                        = Raise e ->
                                        exists w2,
                                          get_file_contents h filename encoding w
                                          = (Raise e, w2)
                                          /\ spawned w2 = spawned w ++ [probe; read])))))).
Proof.
  split.
  - intros e Hv. split; [now apply (ssh_cmd_raises_ValueError _ _ _ _ _ Hv)|].
    exists (logging [mkLog INFO ("STAT " ++ filename)] w).
    rewrite get_file_contents_run, file_exists_run.
    rewrite (exec_command_unbuilt h _ None false default_encoding
               (logging [mkLog INFO ("STAT " ++ filename)] w) e Hv).
    now repeat split.
  - intros probe Hv. split.
    + intros e rem Hp. eexists.
      rewrite get_file_contents_run, file_exists_run.
      rewrite (exec_command_unspawned h _ None false default_encoding
                 (logging [mkLog INFO ("STAT " ++ filename)] w) probe e rem Hv Hp).
      now split.
    + intros p rem Hp.
      destruct (exec_command_outcome h (CmdStr ("test -f " ++ filename))
                  default_encoding
                  (logging [mkLog INFO ("STAT " ++ filename)] w) probe p rem Hv Hp)
        as (w0 & Hx & Hrem & Hs).
      rewrite spawned_logging in Hs.
      change (codec default_encoding) with "utf-8" in Hx.
      split.
      * intros Hnz. pose proof Hnz as Hb. apply Z.eqb_neq in Hb.
        rewrite Hb in Hx.
        assert (Hrc : match exit_status p with 0%Z => true | _ => false end = false)
          by now destruct (exit_status p).
        split.
        -- intros text Ht. rewrite Ht in Hx. cbn [rbind] in Hx. exists w0.
           rewrite get_file_contents_run, file_exists_run, Hx.
           change (returncode (waited _)) with (Some (exit_status p)).
           cbv beta iota. rewrite Hrc. now split.
        -- intros e He. rewrite He in Hx. cbn [rbind] in Hx. exists w0.
           rewrite get_file_contents_run, file_exists_run, Hx. now split.
      * intros Hz. rewrite Hz in Hx. cbn [Z.eqb] in Hx.
        destruct (read_vector_exists _ _ _ _ _ Hv) as [read Hr].
        exists read. split; [assumption|].
        assert (Hfe : file_exists h filename w = (Ok true, w0)).
        { rewrite file_exists_run, Hx.
          change (returncode (waited _)) with (Some (exit_status p)).
          now rewrite Hz. }
        split.
        -- intros e rem' Hp'. rewrite <- Hrem in Hp'. eexists.
           rewrite get_file_contents_run, Hfe.
           rewrite (exec_command_unspawned h _ None false None
                      (logging [mkLog INFO ("GET " ++ filename)] w0) read e rem'
                      Hr Hp').
           split; [reflexivity|]. exact Hs.
        -- intros q rem' Hp'. rewrite <- Hrem in Hp'.
           destruct (exec_command_outcome h (CmdStr ("cat " ++ filename)) None
                       (logging [mkLog INFO ("GET " ++ filename)] w0)
                       read q rem' Hr Hp')
             as (w2 & Hx2 & _ & Hs2).
           rewrite spawned_logging, Hs, <- app_assoc in Hs2. cbn [app] in Hs2.
           change (codec None) with "utf-8" in Hx2.
           destruct (waited_fresh_data read q None true) as (Hout & _ & _).
           split.
           ++ intros Hqz. rewrite Hqz in Hx2. cbn [Z.eqb] in Hx2. exists w2.
              rewrite get_file_contents_run, Hfe, Hx2.
              change (returncode (waited _)) with (Some (exit_status q)).
              rewrite Hqz, Hout. now split.
           ++ intros Hqnz. pose proof Hqnz as Hqb. apply Z.eqb_neq in Hqb.
              rewrite Hqb in Hx2. split.
              ** intros text Ht. rewrite Ht in Hx2. cbn [rbind] in Hx2. exists w2.
                 rewrite get_file_contents_run, Hfe, Hx2.
                 change (returncode (waited _)) with (Some (exit_status q)).
                 cbn [falsy]. rewrite Hqb. now split.
              ** intros e He. rewrite He in Hx2. cbn [rbind] in Hx2. exists w2.
                 rewrite get_file_contents_run, Hfe, Hx2. now split.
Qed.

(** ** Output collected whatever the interleaving *)

Lemma _do_recv_all (stream : list bytes) :
  forall store,
    Forall (fun data => data <> []) stream ->
    _do_recv stream store = ([], store ++ stream).
Proof.
  induction stream as [|data rest IH]; intros store H; simpl.
  - now rewrite app_nil_r.
  - inversion H as [|? ? Hd Hr]; subst.
    destruct data as [|b data]; [contradiction|]. simpl.
    rewrite IH by assumption. now rewrite <- app_assoc.
Qed.

Lemma drain_all (stream : list bytes) :
  Forall (fun data => data <> []) stream -> drain stream = join stream.
Proof. intros H. unfold drain. now rewrite _do_recv_all. Qed.

(** An iteration done early is an iteration [join] does not have to wait
    for. *)
Lemma run_to_end_after_step (p : pipe) (t : Thread) :
  run_to_end (fst (drainer_step p t)) (snd (drainer_step p t)) = run_to_end p t.
Proof.
  unfold drainer_step, run_to_end.
  destruct (finished t) eqn:Ef; cbn [fst snd]; [now rewrite Ef|].
  destruct (closed p) eqn:Ec; cbn [fst snd finished]; [reflexivity|].
  destruct (pending p) as [|data rest]; cbn [read is_empty fst snd finished].
  - reflexivity.
  - destruct data as [|b data]; cbn [is_empty fst snd finished closed pending store].
    + reflexivity.
    + reflexivity.
Qed.

(** Closing stdin does not look at the other two pipes. *)
Lemma buffered_close_pipes (k : Popen) (out err : pipe) :
  stdin_buffer (snd (buffered_close
                       (mkPopen (args k) (stdin_closed k) (stdin_buffer k)
                                (stdin_data k) (stdin_room k) out err (status k))))
  = stdin_buffer (snd (buffered_close k))
  /\ stdin_data (snd (buffered_close
                        (mkPopen (args k) (stdin_closed k) (stdin_buffer k)
                                 (stdin_data k) (stdin_room k) out err (status k))))
     = stdin_data (snd (buffered_close k))
  /\ stdin_room (snd (buffered_close
                        (mkPopen (args k) (stdin_closed k) (stdin_buffer k)
                                 (stdin_data k) (stdin_room k) out err (status k))))
     = stdin_room (snd (buffered_close k)).
Proof.
  unfold buffered_close, flush_buffer, bind, pipe_write, modify.
  cbn [stdin_closed stdin_buffer stdin_data stdin_room args stdout stderr status].
  destruct (stdin_closed k); [cbn; auto|].
  destruct (is_empty (stdin_buffer k)); [cbn; auto|].
  destruct (takes (stdin_room k) _); cbn; auto.
Qed.

Lemma waited_scheduled (t : fd) (c : SSHCommand) :
  waited (scheduled t c) = waited c.
Proof.
  unfold waited, drained, joined, closing, scheduled.
  destruct t; cbn -[buffered_close run_to_end drainer_step];
    rewrite run_to_end_after_step;
    match goal with
    | |- context [buffered_close (mkPopen _ _ _ _ _ ?out ?err _)] =>
        destruct (buffered_close_pipes (cmd c) out err) as (-> & -> & ->)
    end; reflexivity.
Qed.

Lemma waited_interleaved (steps : list fd) :
  forall c, waited (interleaved steps c) = waited c.
Proof.
  induction steps as [|t steps IH]; intros c; simpl.
  - reflexivity.
  - unfold interleaved in *. simpl. now rewrite IH, waited_scheduled.
Qed.

(** X1: after [wait], whatever iterations the drainers made before it, the
    chunks of stdout and of stderr hold every byte the process wrote, and
    the exit code stored is the exit status of the process. *)
Theorem wait_collects_all_output
        (pkg : package) (argv : list string) (p : process)
        (enc : option string) (lg : bool) (steps : list fd) (w : world) :
  Forall (fun data => data <> []) (writes_stdout p) ->
  Forall (fun data => data <> []) (writes_stderr p) ->
  exists r c' w',
    wait pkg (interleaved steps (fresh_command argv p enc lg), w) = (r, (c', w'))
    /\ join (out_data c') = join (writes_stdout p)
    /\ join (err_data c') = join (writes_stderr p)
    /\ returncode c' = Some (exit_status p).
Proof.
  intros Hout Herr.
  assert (Hrc : returncode (interleaved steps (fresh_command argv p enc lg)) = None).
  { generalize (fresh_command argv p enc lg) (eq_refl : returncode (fresh_command argv p enc lg) = None).
    induction steps as [|t steps IH]; intros c Hc; simpl; [assumption|].
    apply IH. now destruct t. }
  assert (Hb : stdin_buffer (cmd (interleaved steps (fresh_command argv p enc lg)))
               = []).
  { clear Hrc.
    generalize (fresh_command argv p enc lg)
               (eq_refl : stdin_buffer (cmd (fresh_command argv p enc lg)) = []).
    induction steps as [|t steps IH]; intros c Hc; simpl; [assumption|].
    apply IH. destruct t; exact Hc. }
  destruct (wait_runs_body pkg (interleaved steps (fresh_command argv p enc lg)) w)
    as (w' & Hw & _).
  { now rewrite Hrc. }
  { now apply close_result_flushed. }
  rewrite waited_interleaved in Hw.
  destruct (waited_fresh_data argv p enc lg) as (Ho & He & _).
  eexists _, _, w'. split; [exact Hw|].
  rewrite Ho, He, !drain_all by assumption. repeat split.
Qed.

(** ** [send] *)


(** [write] then [flush] on an open stdin with nothing in the buffer, when
    the pipe takes the data. *)
Lemma write_flush_taken (raw : bytes) (c : SSHCommand) (w : world) :
  stdin_closed (cmd c) = false ->
  stdin_buffer (cmd c) = [] ->
  takes (stdin_room (cmd c)) (length raw) = true ->
  (stdin_write raw ;; stdin_flush)%monad (c, w)
  = (Ok tt, (written raw c, called [Write raw; Flush] w)).
Proof.
  destruct c as [lg enc rc o e k ot et].
  destruct k as [a cl buf dat room so se st].
  cbn [cmd stdin_closed stdin_buffer stdin_room]. intros -> -> Ht.
  unfold written. stdin_unfold. stdin_simpl.
  rewrite Nat.sub_0_r.
  destruct (length raw <=? bufsize)%nat eqn:Efit; stdin_simpl.
  - destruct raw as [|b raw]; stdin_simpl.
    + rewrite app_nil_r, <- app_assoc.
      destruct room as [r|]; cbn [room_left]; [rewrite Nat.sub_0_r|]; reflexivity.
    + cbn [length] in Ht. rewrite Ht. stdin_simpl.
      now rewrite <- app_assoc.
  - apply Nat.leb_gt, Nat.ltb_lt in Efit. rewrite Efit. stdin_simpl.
    rewrite Ht. stdin_simpl.
    now rewrite <- app_assoc.
Qed.

(** The same when the pipe does not take the data: [BrokenPipeError] is
    raised, by [flush] when the data fits the buffer and by [write] when it
    does not; the data has not reached the process and stays in the buffer
    in the first case. *)
Lemma write_flush_broken (raw : bytes) (c : SSHCommand) (w : world) :
  stdin_closed (cmd c) = false ->
  stdin_buffer (cmd c) = [] ->
  takes (stdin_room (cmd c)) (length raw) = false ->
  exists k,
    (stdin_write raw ;; stdin_flush)%monad (c, w)
    = (Raise BrokenPipeError,
       (with_cmd k c,
        called (if (length raw <=? bufsize)%nat then [Write raw] else []) w))
    /\ stdin_closed k = false
    /\ stdin_data k = stdin_data (cmd c)
    /\ stdin_buffer k = (if (length raw <=? bufsize)%nat then raw else [])
    /\ stdin_room k = Some 0%nat
    /\ status k = status (cmd c)
    /\ stdout k = stdout (cmd c)
    /\ stderr k = stderr (cmd c).
Proof.
  destruct c as [lg enc rc o e k ot et].
  destruct k as [a cl buf dat room so se st].
  cbn [cmd stdin_closed stdin_buffer stdin_room]. intros -> -> Ht.
  assert (Hne : is_empty raw = false).
  { destruct raw; [|reflexivity]. now destruct room. }
  stdin_unfold. stdin_simpl.
  rewrite Nat.sub_0_r.
  destruct (length raw <=? bufsize)%nat eqn:Efit; stdin_simpl.
  - rewrite Hne. stdin_simpl. rewrite Ht. stdin_simpl.
    eexists. split; [reflexivity|]. now repeat split.
  - apply Nat.leb_gt, Nat.ltb_lt in Efit. rewrite Efit. stdin_simpl.
    rewrite Ht. stdin_simpl.
    eexists. split.
    { destruct w. cbn [remote logged calls]. rewrite app_nil_r. reflexivity. }
    now repeat split.
Qed.



(** X3: once [wait] has run, stdin is closed: [send] of bytes that are not
    empty, or of text that is not empty and encodes, raises [ValueError] and
    changes neither the object nor the world; [send] of [None], of the empty
    text or of no bytes still returns without a call. *)
Theorem send_after_wait_raises (c : SSHCommand) (w : world) :
  (forall data,
      data <> [] ->
      send (Some (PyBytes data)) (waited c, w)
      = (Raise (ValueError "write to closed file"), (waited c, w)))
  /\ (forall text raw,
         text <> "" ->
         py_encode (codec (encoding c)) text = Ok raw ->
         send (Some (PyStr text)) (waited c, w)
         = (Raise (ValueError "write to closed file"), (waited c, w)))
  /\ send None (waited c, w) = (Ok tt, (waited c, w))
  /\ send (Some (PyStr "")) (waited c, w) = (Ok tt, (waited c, w))
  /\ send (Some (PyBytes [])) (waited c, w) = (Ok tt, (waited c, w)).
Proof.
  destruct (drained_threads c) as (_ & _ & Hclosed & _).
  assert (Hc : stdin_closed (cmd (waited c)) = true) by exact Hclosed.
  assert (Hw : forall raw,
             (stdin_write raw ;; stdin_flush)%monad (waited c, w)
             = (Raise (ValueError "write to closed file"), (waited c, w))).
  { intros raw. unfold stdin_write, on_cmd, bind, buffered_write. cbn [fst snd].
    now rewrite Hc. }
  repeat split.
  - intros data Hd. destruct data as [|b data]; [contradiction|].
    unfold send. unfold bind at 1. unfold self at 1. cbn [fst snd].
    unfold bind at 1. unfold ret at 1. apply Hw.
  - intros text raw Ht He. destruct text as [|a text]; [contradiction|].
    unfold send. unfold bind at 1. unfold self at 1. cbn [fst snd].
    unfold bind at 1. unfold lift at 1.
    change (encoding (waited c)) with (encoding c). rewrite He. apply Hw.
Qed.

(** X4: built without a command (the default [None]), the object is never
    made: [__init__] raises with nothing logged and no process spawned;
    the exception is the [TypeError] of extending a list by [None], or the
    [ValueError] of a template that does not split, which user, identity
    and hostname being plain words excludes. *)
Theorem init_without_command_raises
        (pkg : package) (hostname user : string) (identity : option string)
        (enc : option string) (lg : bool) (w : world) :
  exists e,
    __init__ pkg hostname user identity None enc lg w = (Raise e, w)
    /\ (e = TypeError "'NoneType' object is not iterable"
        \/ exists msg, e = ValueError msg)
    /\ (plain user = true -> plain (chosen_identity identity) = true ->
        plain hostname = true ->
        e = TypeError "'NoneType' object is not iterable").
Proof.
  destruct (Shlex.split (ssh_template user (chosen_identity identity) hostname))
    as [prefix|e0] eqn:Ep.
  - exists (TypeError "'NoneType' object is not iterable").
    split; [|split; [now left | reflexivity]].
    apply init_raises_before_spawn. unfold ssh_cmd. cbn [command_words rbind].
    now rewrite Ep.
  - exists e0. split; [|split].
    + apply init_raises_before_spawn. unfold ssh_cmd. cbn [command_words rbind].
      now rewrite Ep.
    + right. now apply (split_raises_ValueError _ _ Ep).
    + intros Hu Hi Hh. rewrite split_template in Ep by assumption. discriminate.
Qed.

(** ** Commands run by the host *)

Lemma send_open (data : option pyval) (c : SSHCommand) (w : world)
      (input : option bytes) :
  stdin_closed (cmd c) = false ->
  stdin_buffer (cmd c) = [] ->
  payload (encoding c) data = Ok input ->
  taken (stdin_room (cmd c)) input = true ->
  send data (c, w) = (Ok tt, (fed input c, feeding input w)).
Proof.
  intros Ho Hb. unfold send, payload. destruct data as [[s|b]|].
  - destruct s as [|a s].
    + intros H _. now inversion H.
    + unfold bind at 1. unfold self at 1. cbn [fst snd].
      unfold bind at 1. unfold lift at 1.
      destruct (py_encode _ _) as [raw|e]; cbn [rbind]; [|discriminate].
      intros H Ht. inversion H; subst input. now apply write_flush_taken.
  - destruct b as [|a b].
    + intros H _. now inversion H.
    + unfold bind at 1. unfold self at 1. cbn [fst snd].
      unfold bind at 1. unfold ret at 1.
      intros H Ht. inversion H; subst input. now apply write_flush_taken.
  - intros H _. now inversion H.
Qed.

(** Text that does not encode is not written. *)
Lemma send_unencodable (data : option pyval) (c : SSHCommand) (w : world)
      (e : exn) :
  payload (encoding c) data = Raise e ->
  send data (c, w) = (Raise e, (c, w)).
Proof.
  unfold send, payload. destruct data as [[s|b]|].
  - destruct s as [|a s]; [discriminate|].
    unfold bind at 1. unfold self at 1. cbn [fst snd].
    unfold bind at 1. unfold lift at 1.
    destruct (py_encode _ _) as [raw|e0]; cbn [rbind]; [discriminate|].
    intros H. now inversion H.
  - now destruct b.
  - discriminate.
Qed.

(** What the pipe does not take makes [send] raise. *)
Lemma send_broken (data : option pyval) (c : SSHCommand) (w : world)
      (raw : bytes) :
  stdin_closed (cmd c) = false ->
  stdin_buffer (cmd c) = [] ->
  payload (encoding c) data = Ok (Some raw) ->
  takes (stdin_room (cmd c)) (length raw) = false ->
  exists k,
    send data (c, w)
    = (Raise BrokenPipeError,
       (with_cmd k c,
        called (if (length raw <=? bufsize)%nat then [Write raw] else []) w))
    /\ stdin_data k = stdin_data (cmd c).
Proof.
  intros Ho Hb Hin Ht.
  destruct (write_flush_broken raw c w Ho Hb Ht) as (k & Hs & _ & Hd & _).
  exists k. split; [|exact Hd].
  revert Hin. unfold send, payload. destruct data as [[s|b]|].
  - destruct s as [|a s]; [discriminate|].
    unfold bind at 1. unfold self at 1. cbn [fst snd].
    unfold bind at 1. unfold lift at 1.
    destruct (py_encode _ _) as [raw'|e]; cbn [rbind]; [|discriminate].
    intros H. inversion H; subst raw'. exact Hs.
  - destruct b as [|a b]; [discriminate|].
    unfold bind at 1. unfold self at 1. cbn [fst snd].
    unfold bind at 1. unfold ret at 1.
    intros H. inversion H; subst raw. exact Hs.
  - discriminate.
Qed.

Lemma truthy_data_payload (enc : option string) (data : option pyval) :
  truthy_data data = false -> payload enc data = Ok None.
Proof.
  destruct data as [[[|a s]|[|b l]]|]; cbn; intros H;
    reflexivity || discriminate.
Qed.

Lemma payload_truthy (enc : option string) (data : option pyval) (raw : bytes) :
  payload enc data = Ok (Some raw) -> truthy_data data = true.
Proof.
  destruct data as [[[|a s]|[|b l]]|]; cbn; intros H;
    reflexivity || discriminate.
Qed.

(** [_exec_command] up to the end of [send]. *)
Lemma exec_command_start (h : BaseHost) (command : command)
      (data : option pyval) (bg : bool) (enc : option string) (w : world)
      (argv : list string) (p : process) (rem : W) :
  ssh_cmd (hostname h) (ssh_username h) (ssh_key_filename h) (Some command)
  = Ok argv ->
  popen argv (remote w) = (Ok p, rem) ->
  _exec_command h command data bg enc w
  = on_command (fresh_command argv p enc true)
      ((if truthy_data data then send data else ret tt) ;;
       if negb bg then
         wait pytest_multihost ;;
         c <- self ;;
         outside (log_info ("RETURNCODE " ++ format_returncode (returncode c))) ;;
         if negb (falsy (returncode c)) then
           err <- lift (stderr_text c) ;;
           outside (log_info ("STDERR " ++ err))
         else ret tt
       else ret tt)%monad
      (mkWorld rem (logged w ++ [mkLog INFO ("CMD " ++ py_repr argv)])
               (calls w ++ [Spawn argv; Start STDOUT; Start STDERR])).
Proof.
  intros Hv Hp. unfold _exec_command. unfold bind at 1.
  unfold __init__, bind, lift, log_with, emit_log, emit_call, modify, ret.
  rewrite Hv. cbn [remote logged calls]. rewrite Hp. cbn [remote logged calls].
  rewrite <- !app_assoc. reflexivity.
Qed.

(** [_exec_command] from the vector and the process, for an input the pipe
    takes, in the foreground or in the background. *)
Lemma exec_command_runs (h : BaseHost) (command : command)
      (data : option pyval) (bg : bool) (enc : option string) (w : world)
      (argv : list string) (p : process) (rem : W) (input : option bytes) :
  ssh_cmd (hostname h) (ssh_username h) (ssh_key_filename h) (Some command)
  = Ok argv ->
  popen argv (remote w) = (Ok p, rem) ->
  payload enc data = Ok input ->
  taken (reads_stdin p) input = true ->
  _exec_command h command data bg enc w
  = let w0 := mkWorld rem (logged w ++ [mkLog INFO ("CMD " ++ py_repr argv)])
                      (calls w ++ [Spawn argv; Start STDOUT; Start STDERR]) in
    let c := fed input (fresh_command argv p enc true) in
    if bg then (Ok c, feeding input w0)
    else
      let w1 := logging [mkLog INFO ("RETURNCODE " ++ str_of_int (exit_status p))]
                        (called wait_calls (feeding input w0)) in
      if (exit_status p =? 0)%Z then (Ok (waited c), w1)
      else match py_decode (codec enc) (drain (writes_stderr p)) with
           | Ok text => (Ok (waited c), logging [mkLog INFO ("STDERR " ++ text)] w1)
           | Raise e => (Raise e, w1)
           end.
Proof.
  intros Hv Hp Hin Ht. rewrite (exec_command_start _ _ _ _ _ _ _ _ _ Hv Hp).
  cbv zeta.
  set (w0 := mkWorld rem _ _). set (c0 := fresh_command argv p enc true).
  unfold on_command. unfold bind at 1.
  assert (Hsend : (if truthy_data data then send data else ret tt) (c0, w0)
                  = (Ok tt, (fed input c0, feeding input w0))).
  { destruct (truthy_data data) eqn:Et.
    - now apply send_open.
    - rewrite truthy_data_payload in Hin by assumption. now inversion Hin. }
  rewrite Hsend.
  destruct bg; cbn [negb]; [reflexivity|].
  assert (Hrc : returncode (fed input c0) = None) by now destruct input.
  assert (Hb : stdin_buffer (cmd (fed input c0)) = []) by now destruct input.
  unfold bind at 1.
  rewrite wait_pytest by (rewrite ?Hrc; auto using close_result_flushed).
  unfold bind at 1. unfold self at 1. cbn [fst snd].
  unfold log_info, outside, emit_log, modify, bind, lift, ret. cbn [fst snd].
  assert (Hst : status (cmd (fed input c0)) = exit_status p) by now destruct input.
  change (returncode (waited (fed input c0)))
    with (Some (status (cmd (fed input c0)))).
  rewrite Hst. cbn [falsy format_returncode].
  assert (Herr : stderr_text (waited (fed input c0))
                 = py_decode (codec enc) (drain (writes_stderr p))).
  { destruct (waited_fresh_data argv p enc true) as (_ & _ & <-).
    now destruct input. }
  unfold logging, called. cbn [remote logged calls].
  destruct (exit_status p =? 0)%Z; cbn [negb]; [reflexivity|].
  rewrite Herr. destruct (py_decode _ _); reflexivity.
Qed.

(** [_exec_command] when the pipe does not take the input: [send] raises
    [BrokenPipeError] and [wait] is never called. *)
Lemma exec_command_broken (h : BaseHost) (command : command)
      (data : option pyval) (bg : bool) (enc : option string) (w : world)
      (argv : list string) (p : process) (rem : W) (raw : bytes) :
  ssh_cmd (hostname h) (ssh_username h) (ssh_key_filename h) (Some command)
  = Ok argv ->
  popen argv (remote w) = (Ok p, rem) ->
  payload enc data = Ok (Some raw) ->
  takes (reads_stdin p) (length raw) = false ->
  _exec_command h command data bg enc w
  = (Raise BrokenPipeError,
     mkWorld rem (logged w ++ [mkLog INFO ("CMD " ++ py_repr argv)])
             (calls w ++ [Spawn argv; Start STDOUT; Start STDERR]
                ++ (if (length raw <=? bufsize)%nat then [Write raw] else []))).
Proof.
  intros Hv Hp Hin Ht. rewrite (exec_command_start _ _ _ _ _ _ _ _ _ Hv Hp).
  unfold on_command. unfold bind at 1.
  rewrite (payload_truthy _ _ _ Hin).
  destruct (send_broken data (fresh_command argv p enc true)
              (mkWorld rem (logged w ++ [mkLog INFO ("CMD " ++ py_repr argv)])
                       (calls w ++ [Spawn argv; Start STDOUT; Start STDERR]))
              raw eq_refl eq_refl Hin Ht) as (k & -> & _).
  unfold called. cbn [remote logged calls]. now rewrite <- app_assoc.
Qed.

(** X5: a command started in the background whose input (if any) the pipe
    takes comes back at once: one process is spawned, the input is written
    and flushed, no exit code is stored, the getters are empty and none of
    the calls of [wait] has been made. A later [wait] on it makes those
    calls, returns the exit status of the process and leaves in the chunks
    of stdout what the process wrote. When the pipe does not take the input
    (the process has gone without reading it), no command comes back:
    [BrokenPipeError] is raised with the process spawned and never waited
    for. *)
Theorem background_then_wait (h : BaseHost) (command : command)
        (data : option pyval) (enc : option string) (w : world)
        (argv : list string) (p : process) (rem : W) (input : option bytes) :
  ssh_cmd (hostname h) (ssh_username h) (ssh_key_filename h) (Some command)
  = Ok argv ->
  popen argv (remote w) = (Ok p, rem) ->
  payload enc data = Ok input ->
  (taken (reads_stdin p) input = true ->
   exists c w1 w2,
     _exec_command h command data true enc w = (Ok c, w1)
     /\ returncode c = None
     /\ stdout_text c = Ok (PyStr "")
     /\ stderr_text c = Ok ""
     /\ calls w1 = calls w ++ [Spawn argv; Start STDOUT; Start STDERR]
                           ++ match input with
                              | Some raw => [Write raw; Flush]
                              | None => []
                              end
     /\ wait pytest_multihost (c, w1) = (Ok (Some (exit_status p)), (waited c, w2))
     /\ calls w2 = calls w1 ++ wait_calls
     /\ join (out_data (waited c)) = drain (writes_stdout p))
  /\ (taken (reads_stdin p) input = false ->
      exists w1,
        _exec_command h command data true enc w = (Raise BrokenPipeError, w1)
        /\ remote w1 = rem
        /\ calls w1 = calls w ++ [Spawn argv; Start STDOUT; Start STDERR]
                              ++ match input with
                                 | Some raw =>
                                     if (length raw <=? bufsize)%nat
                                     then [Write raw] else []
                                 | None => []
                                 end).
Proof.
  intros Hv Hp Hin. split.
  - intros Ht.
    rewrite (exec_command_runs _ _ _ _ _ _ _ _ _ _ Hv Hp Hin Ht). cbv zeta.
    set (c := fed input (fresh_command argv p enc true)).
    assert (Hrc : returncode c = None) by (subst c; now destruct input).
    assert (Hb : stdin_buffer (cmd c) = []) by (subst c; now destruct input).
    assert (Hst : status (cmd c) = exit_status p) by (subst c; now destruct input).
    destruct (waited_fresh_data argv p enc true) as (Hout & _ & _).
    eexists c, _, _. split; [reflexivity|].
    split; [assumption|].
    split; [unfold stdout_text; now rewrite Hrc|].
    split; [unfold stderr_text; now rewrite Hrc|].
    split.
    { destruct input; unfold feeding, called; cbn [calls];
        rewrite <- ?app_assoc; cbn [app]; now rewrite ?app_nil_r. }
    rewrite wait_pytest by (rewrite ?Hrc; auto using close_result_flushed).
    rewrite Hst.
    split; [reflexivity|]. split; [reflexivity|].
    rewrite <- Hout. subst c. now destruct input.
  - destruct input as [raw|]; [|discriminate]. cbn [taken]. intros Ht.
    rewrite (exec_command_broken _ _ _ _ _ _ _ _ _ _ Hv Hp Hin Ht).
    eexists. split; [reflexivity|]. now split.
Qed.



(** X8: the getters decode the whole output at once, not chunk by chunk:
    after [wait] on a command just built, [stdout_text] and [stderr_text]
    are given by the joined bytes the process wrote, however the reads cut
    them into chunks. *)
Theorem getters_decode_whole_output
        (argv : list string) (p : process) (enc : option string) (lg : bool) :
  Forall (fun data => data <> []) (writes_stdout p) ->
  Forall (fun data => data <> []) (writes_stderr p) ->
  stdout_text (waited (fresh_command argv p enc lg))
  = (if truthy enc then
       match py_decode (codec enc) (join (writes_stdout p)) with
       | Ok s => Ok (PyStr s)
       | Raise UnicodeDecodeError => Ok (PyBytes (join (writes_stdout p)))
       | Raise other => Raise other
       end
     else Ok (PyBytes (join (writes_stdout p))))
  /\ stderr_text (waited (fresh_command argv p enc lg))
     = py_decode (codec enc) (join (writes_stderr p))
  /\ (forall argv' p' lg',
         Forall (fun data => data <> []) (writes_stdout p') ->
         Forall (fun data => data <> []) (writes_stderr p') ->
         join (writes_stdout p') = join (writes_stdout p) ->
         join (writes_stderr p') = join (writes_stderr p) ->
         stdout_text (waited (fresh_command argv' p' enc lg'))
         = stdout_text (waited (fresh_command argv p enc lg))
         /\ stderr_text (waited (fresh_command argv' p' enc lg'))
            = stderr_text (waited (fresh_command argv p enc lg))).
Proof.
  intros Hout Herr.
  assert (Hgen : forall a q l,
             Forall (fun data => data <> []) (writes_stdout q) ->
             Forall (fun data => data <> []) (writes_stderr q) ->
             stdout_text (waited (fresh_command a q enc l))
             = (if truthy enc then
                  match py_decode (codec enc) (join (writes_stdout q)) with
                  | Ok s => Ok (PyStr s)
                  | Raise UnicodeDecodeError => Ok (PyBytes (join (writes_stdout q)))
                  | Raise other => Raise other
                  end
                else Ok (PyBytes (join (writes_stdout q))))
             /\ stderr_text (waited (fresh_command a q enc l))
                = py_decode (codec enc) (join (writes_stderr q))).
  { intros a q l Ho He.
    destruct (waited_fresh_data a q enc l) as (H1 & H2 & H3).
    rewrite H3, (drain_all _ He). split; [|reflexivity].
    unfold stdout_text.
    change (returncode (waited (fresh_command a q enc l)))
      with (Some (exit_status q)).
    change (encoding (waited (fresh_command a q enc l))) with enc.
    cbv zeta. rewrite H1, (drain_all _ Ho). reflexivity. }
  destruct (Hgen argv p lg Hout Herr) as [H1 H2].
  split; [exact H1|]. split; [exact H2|].
  intros argv' p' lg' Ho' He' Eo Ee.
  destruct (Hgen argv' p' lg' Ho' He') as [H1' H2'].
  rewrite H1, H2, H1', H2', Eo, Ee. now split.
Qed.

(** X11: a [wait] that raised [BrokenPipeError] while closing stdin can be
    called again. The second call finds stdin closed, makes the six calls,
    stores the exit status and returns what a [wait] returns that met no
    error; the chunks it collects are those such a [wait] collects, and
    what was left in the buffer of stdin has not reached the process. *)
Theorem wait_again_after_broken_pipe
        (pkg : package) (c : SSHCommand) (w : world) :
  returncode c = None ->
  stdin_closed (cmd c) = false ->
  stdin_buffer (cmd c) <> [] ->
  takes (stdin_room (cmd c)) (length (stdin_buffer (cmd c))) = false ->
  exists c1 w1 w2,
    wait pkg (c, w) = (Raise BrokenPipeError, (c1, w1))
    /\ wait pkg (c1, w1) = (wait_result pkg c1, (waited c1, w2))
    /\ calls w2 = calls w ++ [Close STDIN] ++ wait_calls
    /\ returncode (waited c1) = Some (status (cmd c))
    /\ out_data (waited c1) = out_data (waited c)
    /\ err_data (waited c1) = err_data (waited c)
    /\ stdin_data (cmd (waited c1)) = stdin_data (cmd c).
Proof.
  intros Hrc Ho Hb Ht.
  pose proof (close_result_stuck c Ho Hb Ht) as Hs.
  exists (closing STDIN c), (called [Close STDIN] w).
  destruct (wait_runs_body pkg (closing STDIN c) (called [Close STDIN] w))
    as (w2 & Hw & Hc & _).
  { change (returncode (closing STDIN c)) with (returncode c).
    now rewrite Hrc. }
  { now apply close_result_closed. }
  exists w2. split; [|split; [exact Hw|split]].
  - apply wait_stuck; [now rewrite Hrc | exact Hs].
  - rewrite Hc. unfold called. cbn [calls]. now rewrite <- app_assoc.
  - split; [reflexivity|]. split; [reflexivity|]. split; [reflexivity|].
    unfold waited, drained, joined, closing, buffered_close, flush_buffer,
      bind, pipe_write.
    cbn [cmd with_returncode with_stderr with_stdout with_cmd stdin_closed
         stdin_data stdin_buffer stdin_room snd fst].
    rewrite Ho, Ht.
    destruct (stdin_buffer (cmd c)) as [|b l]; [contradiction|].
    reflexivity.
Qed.

(** ** The shell line of [run_command] *)

Lemma append_assoc (a b c : string) : ((a ++ b) ++ c = a ++ b ++ c)%string.
Proof. induction a as [|x a IH]; cbn; [reflexivity | now rewrite IH]. Qed.

Lemma quotes_cases (q : ascii) :
  Shlex.quotes q = true -> q = "'"%char \/ q = Shlex.dquote.
Proof.
  unfold Shlex.quotes. intros H.
  apply orb_prop in H as [H | H]; apply Ascii.eqb_eq in H; auto.
Qed.

(** A line that ends with the separator and splits leaves the reader
    between tokens. *)
Lemma split_separated (s : string) (ws : list string) :
  separated s -> Shlex.split s = Ok ws ->
  lex_run lex_start s = (Shlex.SSpace, "", false, ws).
Proof.
  intros [-> | [x ->]] H.
  - cbn in H. inversion H. reflexivity.
  - unfold Shlex.split in H. rewrite lex_run_end, lex_run_app in H.
    fold lex_start in H. rewrite lex_run_app.
    pose proof (lex_run_tidy x lex_start (conj eq_refl eq_refl)) as Ht.
    destruct (lex_run lex_start x) as [[[st tok] quoted] acc].
    destruct st as [| |q|e [| |q|e' back]]; cbn [lex_tidy] in Ht.
    + destruct Ht as [-> ->]. cbn in H |- *. now inversion H.
    + destruct tok; cbn in H |- *; now inversion H.
    + destruct (quotes_cases q Ht) as [-> | ->]; cbn in H; discriminate.
    + contradiction.
    + destruct tok; cbn in H |- *; now inversion H.
    + destruct (quotes_cases q Ht) as [-> | ->]; cbn in H; discriminate.
    + contradiction.
Qed.

(** The script of [run_command] between its parentheses, after a line that
    splits: the words are those of the line, the parenthesis, those of the
    script and the closing parenthesis. *)
Lemma split_wrapped_script (cmd_str script : string) (ws l : list string) :
  separated cmd_str ->
  Shlex.split cmd_str = Ok ws ->
  Shlex.split script = Ok l ->
  Shlex.split (cmd_str ++ "( " ++ script ++ " )")
  = Ok (ws ++ ["("] ++ l ++ [")"]).
Proof.
  intros Hsep Hc Hs.
  rewrite (split_app_between _ _ ws (split_separated _ _ Hsep Hc)).
  change ("( " ++ script ++ " )")%string
    with ("(" ++ String " " (script ++ String " " ")"))%string.
  rewrite (split_app_space "(" _ ["("] eq_refl).
  rewrite (split_app_space script ")" l Hs).
  reflexivity.
Qed.

(** [run_command] is [command_line], the splitting, and [_exec_command]. *)
Lemma run_command_run (h : BaseHost) (argv : command) (set_env : bool)
      (stdin_text : option pyval) (log_stdout raiseonerr : bool)
      (cwd : option string) (bg : bool) (w : world) :
  run_command h argv set_env stdin_text log_stdout raiseonerr cwd bg w
  = match command_line h set_env cwd w with
    | (Raise e, w1) => (Raise e, w1)
    | (Ok cmd_str, w1) =>
        match (match argv with
               | CmdStr script => Shlex.split (cmd_str ++ "( " ++ script ++ " )")
               | CmdList l =>
                   (words <- Shlex.split cmd_str ;;
                    Ok (words ++ ["("] ++ l ++ [")"]))%result
               end) with
        | Raise e => (Raise e, w1)
        | Ok cmd => _exec_command h (CmdList cmd) stdin_text bg default_encoding w1
        end
    end.
Proof.
  unfold run_command, command_line. cbv zeta.
  set (dir := match cwd with None => test_dir h | Some d => d end).
  unfold bind, ret, lift.
  destruct argv as [script|l];
    (destruct (negb (dir =? ""));
     [destruct (mkdir h dir w) as [[[]|e] w1]; [|reflexivity]|];
     (destruct set_env;
      [destruct (file_exists h (env_sh_path h) _) as [[found|e] w2];
       [|reflexivity]|]);
     cbn [rbind]; now destruct (Shlex.split _)).
Qed.

(** The line that [command_line] returns is empty or ends with [&& ]. *)
Lemma command_line_separated (h : BaseHost) (set_env : bool)
      (cwd : option string) (w w1 : world) (s : string) :
  command_line h set_env cwd w = (Ok s, w1) -> separated s.
Proof.
  assert (Hsep : forall a b, separated (a ++ b ++ " && ")).
  { intros a b. right. exists (a ++ b ++ " ")%string.
    now rewrite !append_assoc. }
  assert (Hlast : forall s2,
             separated s2 ->
             separated (if negb (command_prelude h =? "")
                        then (s2 ++ command_prelude h ++ " && ")%string else s2)).
  { intros s2 H2. destruct (negb (command_prelude h =? ""));
      [apply Hsep | assumption]. }
  assert (Hall : match command_line h set_env cwd w with
                 | (Ok s', _) => separated s'
                 | (Raise _, _) => True
                 end).
  { unfold command_line. cbv zeta.
    set (dir := match cwd with None => test_dir h | Some d => d end).
    unfold bind, ret.
    destruct (negb (dir =? "")).
    - destruct (mkdir h dir w) as [[[]|e] w0]; [|exact I].
      destruct set_env.
      + destruct (file_exists h (env_sh_path h) w0) as [[[|]|e] w2];
          [| |exact I]; apply Hlast.
        * right.
          exists ("cd " ++ dir ++ " && " ++ "source " ++ env_sh_path h ++ " ")%string.
          rewrite !append_assoc. reflexivity.
        * apply Hsep.
      + apply Hlast, Hsep.
    - destruct set_env.
      + destruct (file_exists h (env_sh_path h) w) as [[[|]|e] w2];
          [| |exact I]; apply Hlast.
        * apply (Hsep "" ("source " ++ env_sh_path h)%string).
        * now left.
      + apply Hlast. now left. }
  intros H. now rewrite H in Hall.
Qed.

(** X10: a script that [shlex] splits into the words [l] is run by
    [run_command] as the list [l] is: whenever the call with the list
    returns a command, the call with the script returns the same command
    and leaves the same world (the same processes spawned, with the same
    vectors, and the same records logged). *)
Theorem run_command_script_as_words
        (h : BaseHost) (script : string) (l : list string) (set_env : bool)
        (stdin_text : option pyval) (log_stdout raiseonerr : bool)
        (cwd : option string) (bg : bool) (w w' : world) (c : SSHCommand) :
  Shlex.split script = Ok l ->
  run_command h (CmdList l) set_env stdin_text log_stdout raiseonerr cwd bg w
  = (Ok c, w') ->
  run_command h (CmdStr script) set_env stdin_text log_stdout raiseonerr cwd bg w
  = (Ok c, w').
Proof.
  intros Hs. rewrite !run_command_run.
  destruct (command_line h set_env cwd w) as [[cmd_str|e] w1] eqn:Ec;
    [|discriminate].
  pose proof (command_line_separated _ _ _ _ _ _ Ec) as Hsep.
  destruct (Shlex.split cmd_str) as [ws|e] eqn:Ew; cbn [rbind]; [|discriminate].
  now rewrite (split_wrapped_script cmd_str script ws l Hsep Ew Hs).
Qed.

End Engine.

(** * Closed instances

    The built-ins are the UTF-8 codec and [repr_plain]; the remote side is a
    script of processes; the buffer of stdin has the size of [pipe_blksize]. *)

Local Abbreviation Script := (list process).
Local Abbreviation nothing_yet := (mkWorld Script [] [] []).
Local Abbreviation ssh_localhost :=
  (transport_prefix "root" "~/.ssh/id_rsa" "localhost").

(** C1 at a process that exits with zero: the second [wait] repeats the six
    calls. *)
Lemma wait_twice_exit_zero_instance :
  exists w1 c2 w2,
    wait Script Utf8.decode pytest_multihost
         (fresh_command ["ssh"] quiet_process default_encoding false, nothing_yet)
    = (Ok (Some 0%Z),
       (waited (fresh_command ["ssh"] quiet_process default_encoding false), w1))
    /\ wait Script Utf8.decode pytest_multihost
            (waited (fresh_command ["ssh"] quiet_process default_encoding false), w1)
       = (Ok (Some 0%Z), (c2, w2))
    /\ calls Script w1 = calls Script nothing_yet ++ wait_calls
    /\ calls Script w2 = calls Script w1 ++ wait_calls.
Proof.
  apply (wait_twice_exit_zero_repeats_calls Script Utf8.decode pytest_multihost
           (fresh_command ["ssh"] quiet_process default_encoding false)
           nothing_yet).
  - reflexivity.
  - right. left. reflexivity.
  - reflexivity.
Defined.

(** C2 as stated fails in mytest_multihost: the process exits with 1 and its
    stderr is not UTF-8; [wait] makes its calls, stores the exit code, and
    raises instead of returning it. *)
Lemma mytest_wait_raises_on_garbled_stderr :
  exists c w r c' w',
    __init__ Script scripted repr_plain mytest_multihost "localhost" default_user
             None (Some (CmdList ["false"])) default_encoding false
             (mkWorld Script [garbled_process] [] [])
    = (Ok c, w)
    /\ returncode c = None
    /\ wait Script Utf8.decode mytest_multihost (c, w) = (r, (c', w'))
    /\ r = Raise UnicodeDecodeError
    /\ returncode c' = Some 1%Z.
Proof.
  do 5 eexists. split; [reflexivity|]. split; [reflexivity|].
  split; [vm_compute; reflexivity|]. split; reflexivity.
Qed.

(** C2 (amended) in mytest_multihost, at a command with a logger whose
    process fails with text on stderr, and at a command on which a [send]
    has failed. *)
Lemma wait_order_instance :
  (exists w',
      wait Script Utf8.decode mytest_multihost
           (fresh_command ["ssh"] failing_process default_encoding true, nothing_yet)
      = (Ok (Some 1%Z),
         (waited (fresh_command ["ssh"] failing_process default_encoding true), w'))
      /\ calls Script w'
         = [Close STDIN; Join STDOUT; Close STDOUT;
            Join STDERR; Close STDERR; WaitProcess]
      /\ logged Script w'
         = [mkLog DEBUG "CMD RETURNCODE 1"; mkLog DEBUG "CMD STDERR boom"])
  /\ (exists c' w',
         wait Script Utf8.decode mytest_multihost (stuck_command, nothing_yet)
         = (Raise BrokenPipeError, (c', w'))
         /\ calls Script w' = [Close STDIN]
         /\ returncode c' = None).
Proof.
  split.
  - destruct (wait_order_and_result Script Utf8.decode mytest_multihost
                (fresh_command ["ssh"] failing_process default_encoding true)
                nothing_yet eq_refl) as [H _].
    destruct (H (or_intror (or_introl eq_refl)))
      as (w' & Hw & Hc & _ & _ & _ & _ & _ & Hr & _ & _ & Hl).
    exists w'. split; [|split].
    + rewrite Hw, Hr; [reflexivity|]. right. right. now exists "boom".
    + exact Hc.
    + exact (Hl eq_refl eq_refl).
  - destruct (wait_order_and_result Script Utf8.decode mytest_multihost
                stuck_command nothing_yet eq_refl) as [_ H].
    destruct (H eq_refl ltac:(discriminate) eq_refl)
      as (c' & w' & Hw & Hc & _ & Hrc & _).
    exists c', w'. now repeat split.
Defined.


(** C4 as stated fails: the token [a\b] splits into one word and reaches the
    vector with four backslashes, not two. *)
Lemma backslash_becomes_four_not_two :
  Shlex.split "a\b" = Ok ["ab"]
  /\ ssh_cmd "localhost" default_user None (Some (CmdList ["a\b"]))
     = Ok (transport_prefix "root" "~/.ssh/id_rsa" "localhost" ++ ["a\\\\b"])
  /\ "a\\\\b" <> replace backslash "\\" "a\b".
Proof. repeat split. discriminate. Qed.

(** C4 (amended) at the tokens [a b] and [a\b]. *)
Lemma tokens_requoted_instance :
  requote "a b" = Ok (double_quoted "a b")
  /\ Shlex.split (double_quoted "a b") = Ok ["a b"]
  /\ requote "a\b" = Ok "a\b".
Proof.
  destruct tokens_requoted_then_backslashes_quadrupled as (_ & H1 & H2 & H3).
  split; [|split].
  - apply (H2 "a b" ["a"; "b"]); [reflexivity | discriminate].
  - apply H3; reflexivity.
  - apply (H1 "a\b" "ab"). reflexivity.
Defined.

(** C5, where the code departs from the claim: a foreground [run_command]
    with [raiseonerr] true, on a host where [mkdir] succeeds, [env.sh] is
    missing and the command exits with 1, waits, logs exit code and stderr,
    and returns the command: nothing is raised. *)
Theorem run_command_returns_on_nonzero_exit :
  exists c w,
    run_command Script scripted Utf8.decode Utf8.encode repr_plain pipe_blksize
                localhost (CmdList ["false"]) true None true true None false
                (mkWorld Script [quiet_process; mkProcess [] [] 1 None; failing_process] [] [])
    = (Ok c, w)
    /\ returncode c = Some 1%Z
    /\ stderr_text Utf8.decode c = Ok "boom"
    /\ In WaitProcess (calls Script w)
    /\ In (mkLog INFO "RETURNCODE 1") (logged Script w)
    /\ In (mkLog INFO "STDERR boom") (logged Script w)
    /\ spawned Script w
       = [transport_prefix "root" "~/.ssh/id_rsa" "localhost"
            ++ ["mkdir"; "-p"; "/root/multihost_tests"];
          transport_prefix "root" "~/.ssh/id_rsa" "localhost"
            ++ ["test"; "-f"; "/root/multihost_tests/env.sh"];
          transport_prefix "root" "~/.ssh/id_rsa" "localhost"
            ++ ["cd"; "/root/multihost_tests"; "&&"; "set"; "-e"; "&&";
                "("; "false"; ")"]].
Proof.
  do 2 eexists. split; [vm_compute; reflexivity|].
  repeat split; vm_compute; tauto.
Qed.

(** C6 as stated fails: the probe exits with 1 and its stderr is not UTF-8;
    the facade raises the decoding error met while logging that stderr, not
    [IOError]. No read command runs. *)
Lemma get_file_contents_raises_decode_error_of_probe :
  exists w1,
    get_file_contents Script scripted Utf8.decode Utf8.encode repr_plain
                      pipe_blksize localhost "/tmp/test.txt" None
                      (mkWorld Script [garbled_process; quiet_process] [] [])
    = (Raise UnicodeDecodeError, w1)
    /\ spawned Script w1 = [ssh_localhost ++ ["test"; "-f"; "/tmp/test.txt"]].
Proof. eexists. split; vm_compute; reflexivity. Qed.

(** C6 (amended) at a file that is missing (the probe exits with 1), at one
    that holds the text [test], at a path with an apostrophe, for which no
    vector can be built, and at a file whose [cat] fails with a stderr that
    is not UTF-8. *)
Lemma get_file_contents_instance :
  (exists w1,
      get_file_contents Script scripted Utf8.decode Utf8.encode repr_plain
                        pipe_blksize localhost "/tmp/test.txt" None
                        (mkWorld Script [mkProcess [] [] 1 None] [] [])
      = (Raise IOError, w1)
      /\ spawned Script w1 = [ssh_localhost ++ ["test"; "-f"; "/tmp/test.txt"]])
  /\ (exists w2,
         get_file_contents Script scripted Utf8.decode Utf8.encode repr_plain
                           pipe_blksize localhost "/tmp/test.txt" (Some "utf-8")
                           (mkWorld Script
                                    [quiet_process;
                                     mkProcess [list_byte_of_string "test"] [] 0 None]
                                    [] [])
         = (Ok (Some (PyStr "test")), w2)
         /\ spawned Script w2
            = [ssh_localhost ++ ["test"; "-f"; "/tmp/test.txt"];
               ssh_localhost ++ ["cat"; "/tmp/test.txt"]])
  /\ (exists w1,
         get_file_contents Script scripted Utf8.decode Utf8.encode repr_plain
                           pipe_blksize localhost "/tmp/it's.txt" None
                           (mkWorld Script [quiet_process; quiet_process] [] [])
         = (Raise (ValueError "No closing quotation"), w1)
         /\ spawned Script w1 = [])
  /\ (exists w2,
         get_file_contents Script scripted Utf8.decode Utf8.encode repr_plain
                           pipe_blksize localhost "/tmp/test.txt" None
                           (mkWorld Script [quiet_process; garbled_process] [] [])
         = (Raise UnicodeDecodeError, w2)
         /\ spawned Script w2
            = [ssh_localhost ++ ["test"; "-f"; "/tmp/test.txt"];
               ssh_localhost ++ ["cat"; "/tmp/test.txt"]]).
Proof.
  split; [|split; [|split]].
  - destruct (get_file_contents_probes_then_reads
                Script scripted Utf8.decode Utf8.encode repr_plain pipe_blksize
                localhost "/tmp/test.txt" None
                (mkWorld Script [mkProcess [] [] 1 None] [] [])) as [_ H].
    destruct (H (ssh_localhost ++ ["test"; "-f"; "/tmp/test.txt"]) eq_refl)
      as [_ H1].
    destruct (H1 (mkProcess [] [] 1 None) [] eq_refl) as [H2 _].
    destruct (H2 ltac:(discriminate)) as [H3 _].
    exact (H3 "" eq_refl).
  - destruct (get_file_contents_probes_then_reads
                Script scripted Utf8.decode Utf8.encode repr_plain pipe_blksize
                localhost "/tmp/test.txt" (Some "utf-8")
                (mkWorld Script
                         [quiet_process;
                          mkProcess [list_byte_of_string "test"] [] 0 None] [] []))
      as [_ H].
    destruct (H (ssh_localhost ++ ["test"; "-f"; "/tmp/test.txt"]) eq_refl)
      as [_ H1].
    destruct (H1 quiet_process [mkProcess [list_byte_of_string "test"] [] 0 None]
                 eq_refl) as [_ H2].
    destruct (H2 eq_refl) as (read & Hr & _ & H3).
    vm_compute in Hr. injection Hr as Hr. subst read.
    destruct (H3 (mkProcess [list_byte_of_string "test"] [] 0 None) [] eq_refl)
      as [H4 _].
    exact (H4 eq_refl).
  - destruct (get_file_contents_probes_then_reads
                Script scripted Utf8.decode Utf8.encode repr_plain pipe_blksize
                localhost "/tmp/it's.txt" None
                (mkWorld Script [quiet_process; quiet_process] [] [])) as [H _].
    destruct (H (ValueError "No closing quotation") eq_refl)
      as [_ (w1 & Hg & _ & Hs)].
    exists w1. split; assumption.
  - destruct (get_file_contents_probes_then_reads
                Script scripted Utf8.decode Utf8.encode repr_plain pipe_blksize
                localhost "/tmp/test.txt" None
                (mkWorld Script [quiet_process; garbled_process] [] []))
      as [_ H].
    destruct (H (ssh_localhost ++ ["test"; "-f"; "/tmp/test.txt"]) eq_refl)
      as [_ H1].
    destruct (H1 quiet_process [garbled_process] eq_refl) as [_ H2].
    destruct (H2 eq_refl) as (read & Hr & _ & H3).
    vm_compute in Hr. injection Hr as Hr. subst read.
    destruct (H3 garbled_process [] eq_refl) as [_ H4].
    destruct (H4 ltac:(discriminate)) as [_ H5].
    exact (H5 UnicodeDecodeError eq_refl).
Defined.

(** C7 at a command that was just built. *)
Lemma accessors_empty_instance :
  stdout_text Utf8.decode
              (fresh_command ["ssh"] binary_process default_encoding false)
  = Ok (PyStr "")
  /\ stderr_text Utf8.decode
                 (fresh_command ["ssh"] binary_process default_encoding false)
     = Ok "".
Proof.
  apply (accessors_empty_before_wait Utf8.decode
           (fresh_command ["ssh"] binary_process default_encoding false)).
  reflexivity.
Defined.

(** C8 as stated fails in mytest_multihost: on a finalized command the
    setter of [stdout_text] puts one new chunk in place of the chunk the
    process wrote. *)
Lemma setter_replaces_chunks_of_finalized_command :
  exists c',
    Finalized (waited (fresh_command ["ssh"] (mkProcess [[x61]] [] 0 None)
                                     default_encoding false))
    /\ set_stdout_text Script Utf8.encode "b"
         (waited (fresh_command ["ssh"] (mkProcess [[x61]] [] 0 None)
                                default_encoding false), nothing_yet)
       = (Ok tt, (c', nothing_yet))
    /\ out_data (waited (fresh_command ["ssh"] (mkProcess [[x61]] [] 0 None)
                                       default_encoding false)) = [[x61]]
    /\ out_data c' = [[x62]].
Proof.
  eexists. split; [apply waited_Finalized|].
  split; [vm_compute; reflexivity|].
  split; vm_compute; reflexivity.
Qed.

(** C8 (amended) at a second [wait] on a finalized command. *)
Lemma finalized_result_instance :
  exists r c' w',
    wait Script Utf8.decode mytest_multihost
         (waited (fresh_command ["ssh"] binary_process default_encoding false),
          nothing_yet)
    = (r, (c', w'))
    /\ out_data c' = [[x61]; [xff]]
    /\ err_data c' = [[xff]]
    /\ returncode c' = Some 0%Z.
Proof.
  destruct (wait Script Utf8.decode mytest_multihost
              (waited (fresh_command ["ssh"] binary_process default_encoding false),
               nothing_yet)) as [r [c' w']] eqn:E.
  exists r, c', w'. split; [reflexivity|].
  exact (proj1 (finalized_result_changed_only_by_setter
                  Script Utf8.decode Utf8.encode pipe_blksize
                  (waited (fresh_command ["ssh"] binary_process default_encoding false))
                  nothing_yet (waited_Finalized _))
               mytest_multihost r c' w' E).
Defined.

(** C9, where the code departs from the claim: user, identity and hostname
    are put into the [ssh] line by [str.format], unquoted, before [shlex]
    splits the line. With an apostrophe in the user and another in the
    hostname, everything between the two, the identity and all the options
    included, is one quoted stretch: the process is spawned with a vector of
    five words, of which the fourth holds the text of the options, and none
    is the option [-o] or [-i]. *)
Theorem quoted_fields_swallow_options :
  exists c w,
    __init__ Script scripted repr_plain pytest_multihost
             "o'brien.local" "o'brien" None (Some (CmdList ["true"]))
             default_encoding false (mkWorld Script [quiet_process] [] [])
    = (Ok c, w)
    /\ spawned Script w
       = [["ssh"; "-T"; "-l";
           double_quoted
             "obrien -i ~/.ssh/id_rsa -o UserKnownHostsFile=/dev/null -o ControlMaster=auto -o StrictHostKeyChecking=no -o ControlPersist=10m -o ControlPath=/tmp/mytest-%r@%h:%p obrien.local";
           "true"]]
    /\ (forall argv,
           In argv (spawned Script w) ->
           ~ In "-o" argv
           /\ ~ In "-i" argv
           /\ ~ In "UserKnownHostsFile=/dev/null" argv
           /\ ~ In "ControlMaster=auto" argv
           /\ ~ In "StrictHostKeyChecking=no" argv
           /\ ~ In "ControlPersist=10m" argv
           /\ ~ In "ControlPath=/tmp/mytest-%r@%h:%p" argv).
Proof.
  do 2 eexists. split; [vm_compute; reflexivity|].
  split; [vm_compute; reflexivity|].
  intros argv [<- | []].
  repeat split; cbn; intros H;
    repeat (destruct H as [H | H]; [discriminate H|]); exact H.
Qed.


(** X1 at a process whose output was read in part before [wait]. *)
Lemma wait_collects_instance :
  exists r c' w',
    wait Script Utf8.decode pytest_multihost
         (interleaved [STDOUT; STDERR; STDOUT]
                      (fresh_command ["ssh"] binary_process default_encoding false),
          nothing_yet)
    = (r, (c', w'))
    /\ join (out_data c') = [x61; xff]
    /\ join (err_data c') = [xff]
    /\ returncode c' = Some 0%Z.
Proof.
  apply (wait_collects_all_output Script Utf8.decode pytest_multihost
           ["ssh"] binary_process default_encoding false
           [STDOUT; STDERR; STDOUT] nothing_yet);
    repeat constructor; discriminate.
Defined.


(** X3 at a byte and at a text sent after [wait]. *)
Lemma send_after_wait_instance :
  send Script Utf8.encode pipe_blksize (Some (PyBytes [x61]))
       (waited (fresh_command ["ssh"] quiet_process default_encoding false),
        nothing_yet)
  = (Raise (ValueError "write to closed file"),
     (waited (fresh_command ["ssh"] quiet_process default_encoding false),
      nothing_yet))
  /\ send Script Utf8.encode pipe_blksize (Some (PyStr "hi"))
          (waited (fresh_command ["ssh"] quiet_process default_encoding false),
           nothing_yet)
     = (Raise (ValueError "write to closed file"),
        (waited (fresh_command ["ssh"] quiet_process default_encoding false),
         nothing_yet)).
Proof.
  destruct (send_after_wait_raises Script Utf8.encode pipe_blksize
              (fresh_command ["ssh"] quiet_process default_encoding false)
              nothing_yet) as (H1 & H2 & _).
  split.
  - apply H1. discriminate.
  - apply (H2 "hi" (list_byte_of_string "hi")); [discriminate | reflexivity].
Defined.

(** X4 at the call [SSHCommand('localhost')]. *)
Lemma init_without_command_instance :
  __init__ Script scripted repr_plain mytest_multihost "localhost" default_user
           None None default_encoding false
           (mkWorld Script [quiet_process] [] [])
  = (Raise (TypeError "'NoneType' object is not iterable"),
     mkWorld Script [quiet_process] [] []).
Proof.
  destruct (init_without_command_raises Script scripted repr_plain
              mytest_multihost "localhost" default_user None default_encoding
              false (mkWorld Script [quiet_process] [] []))
    as (e & H & _ & He).
  rewrite H, (He eq_refl eq_refl eq_refl). reflexivity.
Defined.

(** X5 at a background command with input on [localhost], run by a process
    that reads it and by one that has gone. *)
Lemma background_then_wait_instance :
  (exists c w1 w2,
      _exec_command Script scripted Utf8.decode Utf8.encode repr_plain pipe_blksize
                    localhost (CmdList ["cat"]) (Some (PyStr "hi")) true
                    default_encoding
                    (mkWorld Script [mkProcess [list_byte_of_string "hi"] [] 0 None] [] [])
      = (Ok c, w1)
      /\ returncode c = None
      /\ calls Script w1
         = [Spawn (ssh_localhost ++ ["cat"]);
            Start STDOUT; Start STDERR; Write (list_byte_of_string "hi"); Flush]
      /\ wait Script Utf8.decode pytest_multihost (c, w1)
         = (Ok (Some 0%Z), (waited c, w2))
      /\ join (out_data (waited c)) = list_byte_of_string "hi")
  /\ (exists w1,
         _exec_command Script scripted Utf8.decode Utf8.encode repr_plain
                       pipe_blksize localhost (CmdList ["cat"]) (Some (PyStr "hi"))
                       true default_encoding
                       (mkWorld Script [unreachable_process] [] [])
         = (Raise BrokenPipeError, w1)
         /\ calls Script w1
            = [Spawn (ssh_localhost ++ ["cat"]);
               Start STDOUT; Start STDERR; Write (list_byte_of_string "hi")]).
Proof.
  split.
  - destruct (background_then_wait
                Script scripted Utf8.decode Utf8.encode repr_plain pipe_blksize
                localhost (CmdList ["cat"]) (Some (PyStr "hi")) default_encoding
                (mkWorld Script [mkProcess [list_byte_of_string "hi"] [] 0 None] [] [])
                (ssh_localhost ++ ["cat"])
                (mkProcess [list_byte_of_string "hi"] [] 0 None) []
                (Some (list_byte_of_string "hi")) eq_refl eq_refl eq_refl)
      as [H _].
    destruct (H eq_refl) as (c & w1 & w2 & Hx & Hrc & _ & _ & Hc & Hw & _ & Hout).
    exists c, w1, w2. repeat split; assumption.
  - destruct (background_then_wait
                Script scripted Utf8.decode Utf8.encode repr_plain pipe_blksize
                localhost (CmdList ["cat"]) (Some (PyStr "hi")) default_encoding
                (mkWorld Script [unreachable_process] [] [])
                (ssh_localhost ++ ["cat"]) unreachable_process []
                (Some (list_byte_of_string "hi")) eq_refl eq_refl eq_refl)
      as [_ H].
    destruct (H eq_refl) as (w1 & Hx & _ & Hc).
    exists w1. split; assumption.
Defined.



(** X8 at a two-byte character that arrives in two reads. *)
Lemma getters_decode_whole_output_instance :
  stdout_text Utf8.decode
              (waited (fresh_command ["ssh"] (mkProcess [[xc3]; [xa9]] [] 0 None)
                                     default_encoding false))
  = Ok (PyStr (string_of_list_byte [xc3; xa9])).
Proof.
  destruct (getters_decode_whole_output Utf8.decode
              ["ssh"] (mkProcess [[xc3]; [xa9]] [] 0 None) default_encoding false)
    as [H _].
  - repeat constructor; discriminate.
  - constructor.
  - rewrite H. reflexivity.
Defined.

(** X9 at the command of the test suite. *)
Lemma transport_vector_instance :
  ssh_cmd "localhost" default_user None (Some (CmdList ["echo"; "hello"; "world"]))
  = Ok ["ssh"; "-T"; "-l"; "root"; "-i"; "~/.ssh/id_rsa";
        "-o"; "UserKnownHostsFile=/dev/null"; "-o"; "ControlMaster=auto";
        "-o"; "StrictHostKeyChecking=no"; "-o"; "ControlPersist=10m";
        "-o"; "ControlPath=/tmp/mytest-%r@%h:%p"; "localhost";
        "echo"; "hello"; "world"].
Proof.
  destruct (transport_vector_of_plain_fields
              "localhost" default_user None
              (Some (CmdList ["echo"; "hello"; "world"])) ["echo"; "hello"; "world"]
              eq_refl eq_refl eq_refl eq_refl) as [H _].
  rewrite H. reflexivity.
Defined.

(** X10 at a script with a quoted argument, on a host where [mkdir]
    succeeds and [env.sh] is missing. *)
Lemma run_command_script_instance :
  exists c w',
    run_command Script scripted Utf8.decode Utf8.encode repr_plain pipe_blksize
                localhost (CmdStr "echo 'hello world'") true None true true None
                false
                (mkWorld Script [quiet_process; mkProcess [] [] 1 None;
                                 mkProcess [list_byte_of_string "hello world"] [] 0
                                           None] [] [])
    = (Ok c, w')
    /\ returncode c = Some 0%Z
    /\ spawned Script w'
       = [ssh_localhost ++ ["mkdir"; "-p"; "/root/multihost_tests"];
          ssh_localhost ++ ["test"; "-f"; "/root/multihost_tests/env.sh"];
          ssh_localhost
            ++ ["cd"; "/root/multihost_tests"; "&&"; "set"; "-e"; "&&";
                "("; "echo"; double_quoted "hello world"; ")"]].
Proof.
  do 2 eexists. split; [|split].
  - apply (run_command_script_as_words
             Script scripted Utf8.decode Utf8.encode repr_plain pipe_blksize
             localhost "echo 'hello world'" ["echo"; "hello world"]).
    + reflexivity.
    + vm_compute. reflexivity.
  - reflexivity.
  - vm_compute. reflexivity.
Defined.

(** X11 at the command on which a [send] has failed. *)
Lemma wait_again_instance :
  exists c1 w1 w2,
    wait Script Utf8.decode pytest_multihost (stuck_command, nothing_yet)
    = (Raise BrokenPipeError, (c1, w1))
    /\ wait Script Utf8.decode pytest_multihost (c1, w1)
       = (Ok (Some 255%Z), (waited c1, w2))
    /\ calls Script w2
       = [Close STDIN; Close STDIN; Join STDOUT; Close STDOUT;
          Join STDERR; Close STDERR; WaitProcess]
    /\ stdin_data (cmd (waited c1)) = [].
Proof.
  destruct (wait_again_after_broken_pipe Script Utf8.decode pytest_multihost
              stuck_command nothing_yet eq_refl eq_refl ltac:(discriminate)
              eq_refl)
    as (c1 & w1 & w2 & H1 & H2 & Hc & _ & _ & _ & Hd).
  exists c1, w1, w2. split; [exact H1|].
  vm_compute in H1. injection H1 as <- <-.
  split; [exact H2|]. split; [exact Hc | exact Hd].
Defined.
